(** * ASN prefix aggregation: a shallow embedding of [a.py]

    The script resolves the IP prefixes announced by an autonomous system
    from three sources (BGPView, RIPEstat and the bgp.tools bulk table),
    merges them and returns them sorted.  This development embeds the
    functions [normalize_asn], [get_bgptools_lines], the three
    [fetch_prefixes_*] adapters and [process_asn], and states what they do.

    Conventions of the embedding.
    - A Python [str] is a [string], read as its UTF-8 bytes; the character
      classes used by [str.strip], [str.upper], [str.splitlines] and [int]
      are the ones Python gives to ASCII code points.  Bytes from 128 on
      are carried around unchanged: they have no case and are neither
      white space nor line breaks here.  Strings compare byte by byte,
      which on UTF-8 is the order of the code points.
    - Time is counted in whole seconds.  The limits of the interpreter
      (recursion depth, length of the digits given to [int]) are not
      modelled.
    - The file system, the network and the clock are an explicit
      environment; [print] appends to an output trace.
    - A Python exception is a value of [exn]; a call either returns or
      raises. *)

From Stdlib Require Import ZArith NArith Ascii String List Bool Lia.
From stdpp Require Import base decidable option list strings gmap sorting.

Open Scope Z_scope.

(** ** Text primitives *)

Module Text.

Definition code (c : ascii) : N := N_of_ascii c.

(** [c.isspace()] on ASCII: TAB..CR, FS..US and the space. *)
Definition isspace (c : ascii) : bool :=
  let n := code c in
  ((9 <=? n) && (n <=? 13) || (28 <=? n) && (n <=? 32))%N.

Definition islower (c : ascii) : bool :=
  let n := code c in ((97 <=? n) && (n <=? 122))%N.

Definition isdigit (c : ascii) : bool :=
  let n := code c in ((48 <=? n) && (n <=? 57))%N.

Definition upper_char (c : ascii) : ascii :=
  if islower c then ascii_of_N (code c - 32) else c.

(** [s.upper()] *)
Fixpoint upper (s : string) : string :=
  match s with
  | EmptyString => EmptyString
  | String c r => String (upper_char c) (upper r)
  end.

(** [s.lstrip()] *)
Fixpoint lstrip (s : string) : string :=
  match s with
  | EmptyString => EmptyString
  | String c r => if isspace c then lstrip r else s
  end.

(** [s.rstrip()] *)
Fixpoint rstrip (s : string) : string :=
  match s with
  | EmptyString => EmptyString
  | String c r =>
      match rstrip r with
      | EmptyString => if isspace c then EmptyString else String c EmptyString
      | r' => String c r'
      end
  end.

(** [s.strip()] *)
Definition strip (s : string) : string := rstrip (lstrip s).

(** [s.startswith(p)] *)
Definition startswith (s p : string) : bool := String.prefix p s.

(** [s[n:]] *)
Fixpoint slice_from (n : nat) (s : string) : string :=
  match n, s with
  | O, _ => s
  | S _, EmptyString => EmptyString
  | S n', String _ r => slice_from n' r
  end.

(** [p in s] for two strings *)
Fixpoint contains (p s : string) : bool :=
  String.prefix p s ||
  match s with
  | EmptyString => false
  | String _ r => contains p r
  end.

(** The characters of a string, each as a string of length one. *)
Fixpoint chars (s : string) : list string :=
  match s with
  | EmptyString => []
  | String c r => String c EmptyString :: chars r
  end.

Definition digit_val (c : ascii) : Z := Z.of_N (code c - 48).

(** The digits of an [int] literal: decimal digits, single underscores
    allowed between two digits. *)
Fixpoint int_digits (acc : Z) (after_digit : bool) (s : string) : option Z :=
  match s with
  | EmptyString => if after_digit then Some acc else None
  | String c r =>
      if isdigit c then int_digits (10 * acc + digit_val c) true r
      else if Ascii.eqb c "_" then
        if after_digit then int_digits acc false r else None
      else None
  end.

(** [int(s)]: [None] stands for [ValueError].  White space around the
    literal is ignored, one sign is allowed. *)
Definition py_int (s : string) : option Z :=
  match strip s with
  | String "+" r => int_digits 0 false r
  | String "-" r => Z.opp <$> int_digits 0 false r
  | t => int_digits 0 false t
  end.

(** A non-empty run of decimal digits. *)
Fixpoint all_digits (s : string) : bool :=
  match s with
  | EmptyString => true
  | String c r => isdigit c && all_digits r
  end.

Definition is_decimal (s : string) : bool :=
  match s with
  | EmptyString => false
  | _ => all_digits s
  end.

End Text.

Import Text.

(** ** The ASN normalizer *)

Definition normalize_asn (asn : string) : string :=
  let asn := upper (strip asn) in
  if negb (startswith asn "AS") then "AS" +:+ asn else asn.

(** The textual form of an ASN in the data model: upper case, led by
    [AS], the rest a non-negative integer. *)
Definition asn_well_formed (asn : string) : bool :=
  startswith asn "AS" && String.eqb (upper asn) asn
  && is_decimal (slice_from 2 asn).

(** ** JSON values and [json.loads] *)

(** A decoded JSON document.  An object keeps its keys in insertion order,
    each key once.  A number with a fraction or an exponent (and the
    literals [NaN], [Infinity], [-Infinity]) is a Python [float]: it is kept
    as the text of its literal, and the two places where the script looks
    at its value go through [float_ops] below. *)
#[local] Set Warnings "-register-all,-clear-no-such-hyp".
Inductive json : Type :=
| JNull
| JBool (b : bool)
| JInt (n : Z)
| JFloat (lit : string)
| JStr (s : string)
| JArr (items : list json)
| JObj (members : list (string * json)).

Module Json.

(** [d.get(k)] *)
Fixpoint dict_get (k : string) (d : list (string * json)) : option json :=
  match d with
  | [] => None
  | (k', v) :: d' => if String.eqb k k' then Some v else dict_get k d'
  end.

(** [d[k] = v] *)
Fixpoint dict_set (k : string) (v : json) (d : list (string * json))
  : list (string * json) :=
  match d with
  | [] => [(k, v)]
  | (k', v') :: d' =>
      if String.eqb k k' then (k', v) :: d' else (k', v') :: dict_set k v d'
  end.

Definition is_ws (c : ascii) : bool :=
  let n := code c in ((n =? 32) || (n =? 9) || (n =? 10) || (n =? 13))%N.

Fixpoint skip_ws (s : string) : string :=
  match s with
  | String c r => if is_ws c then skip_ws r else s
  | EmptyString => EmptyString
  end.

Definition hex_val (c : ascii) : option N :=
  let n := code c in
  if ((48 <=? n) && (n <=? 57))%N then Some (n - 48)%N
  else if ((97 <=? n) && (n <=? 102))%N then Some (n - 87)%N
  else if ((65 <=? n) && (n <=? 70))%N then Some (n - 55)%N
  else None.

Definition hex4 (a b c d : ascii) : option N :=
  x ← hex_val a; y ← hex_val b; z ← hex_val c; w ← hex_val d;
  Some (((x * 16 + y) * 16 + z) * 16 + w)%N.

Definition byte_of (n : N) : ascii := ascii_of_N n.

(** The UTF-8 bytes of a code point. *)
Definition utf8 (n : N) : string :=
  (if n <? 128 then String (byte_of n) EmptyString
   else if n <? 2048 then
     String (byte_of (192 + n / 64))
       (String (byte_of (128 + n mod 64)) EmptyString)
   else if n <? 65536 then
     String (byte_of (224 + n / 4096))
       (String (byte_of (128 + (n / 64) mod 64))
          (String (byte_of (128 + n mod 64)) EmptyString))
   else
     String (byte_of (240 + n / 262144))
       (String (byte_of (128 + (n / 4096) mod 64))
          (String (byte_of (128 + (n / 64) mod 64))
             (String (byte_of (128 + n mod 64)) EmptyString))))%N.

(** One element of a string literal: a character, or a [\uXXXX] unit. *)
Inductive item : Type :=
| Chr (c : ascii)
| Uni (n : N).

Definition escape (e : ascii) : option ascii :=
  let n := code e in
  if (n =? 34)%N then Some e            (* quote *)
  else if (n =? 92)%N then Some e       (* backslash *)
  else if (n =? 47)%N then Some e       (* slash *)
  else if (n =? 98)%N then Some (byte_of 8)
  else if (n =? 102)%N then Some (byte_of 12)
  else if (n =? 110)%N then Some (byte_of 10)
  else if (n =? 114)%N then Some (byte_of 13)
  else if (n =? 116)%N then Some (byte_of 9)
  else None.

(** The body of a string literal, from just after its opening quote up
    to the closing one; control characters are refused. *)
Fixpoint scan_items (s : string) : option (list item * string) :=
  match s with
  | EmptyString => None
  | String c r =>
      if (code c =? 34)%N then Some ([], r)
      else if (code c =? 92)%N then
        match r with
        | String e r1 =>
            if (code e =? 117)%N then
              match r1 with
              | String h1 (String h2 (String h3 (String h4 r2))) =>
                  n ← hex4 h1 h2 h3 h4;
                  '(its, rest) ← scan_items r2;
                  Some (Uni n :: its, rest)
              | _ => None
              end
            else
              x ← escape e;
              '(its, rest) ← scan_items r1;
              Some (Chr x :: its, rest)
        | EmptyString => None
        end
      else if (code c <? 32)%N then None
      else
        '(its, rest) ← scan_items r;
        Some (Chr c :: its, rest)
  end.

(** Surrogate pairs written as two [\u] escapes are one code point. *)
Fixpoint decode_items (its : list item) : string :=
  match its with
  | [] => EmptyString
  | Chr c :: r => String c (decode_items r)
  | Uni hi :: r =>
      match r with
      | Uni lo :: r' =>
          if ((55296 <=? hi) && (hi <=? 56319)
              && (56320 <=? lo) && (lo <=? 57343))%N
          then utf8 (65536 + ((hi - 55296) * 1024 + (lo - 56320)))%N
               +:+ decode_items r'
          else utf8 hi +:+ decode_items r
      | _ => utf8 hi +:+ decode_items r
      end
  end.

Definition scan_string (s : string) : option (string * string) :=
  '(its, rest) ← scan_items s;
  Some (decode_items its, rest).

Fixpoint span_digits (s : string) : string * string :=
  match s with
  | String c r =>
      if isdigit c then let '(ds, rest) := span_digits r in (String c ds, rest)
      else (EmptyString, s)
  | EmptyString => (EmptyString, EmptyString)
  end.

Fixpoint digits_val (acc : Z) (s : string) : Z :=
  match s with
  | EmptyString => acc
  | String c r => digits_val (10 * acc + digit_val c) r
  end.

(** The longest number literal at the head of [s]: an optional minus
    sign; an integer part, either a single zero or a non-zero digit
    followed by digits; an optional fraction, a dot and at least one
    digit; an optional exponent, [e] or [E], an optional sign and at
    least one digit.  A literal with neither fraction nor exponent is an
    [int]. *)
Definition scan_number (s : string) : option (json * string) :=
  let '(sign, s1) :=
    match s with
    | String "-" r => ("-", r)
    | _ => (EmptyString, s)
    end in
  match s1 with
  | String c r =>
      if isdigit c then
        let '(ip, s2) :=
          if (code c =? 48)%N then (String c EmptyString, r)
          else let '(ds, r') := span_digits r in (String c ds, r') in
        let '(frac, s3) :=
          match s2 with
          | String "." r2 =>
              let '(ds, r3) := span_digits r2 in
              match ds with
              | EmptyString => (EmptyString, s2)
              | _ => (String "." ds, r3)
              end
          | _ => (EmptyString, s2)
          end in
        let '(ex, s4) :=
          match s3 with
          | String e r3 =>
              if ((code e =? 101) || (code e =? 69))%N then
                let '(sg, r4) :=
                  match r3 with
                  | String "+" x => ("+", x)
                  | String "-" x => ("-", x)
                  | _ => (EmptyString, r3)
                  end in
                let '(ds, r5) := span_digits r4 in
                match ds with
                | EmptyString => (EmptyString, s3)
                | _ => (String e (sg +:+ ds), r5)
                end
              else (EmptyString, s3)
          | EmptyString => (EmptyString, s3)
          end in
        match frac, ex with
        | EmptyString, EmptyString =>
            let v := digits_val 0 ip in
            Some (JInt (match sign with EmptyString => v | _ => - v end), s4)
        | _, _ => Some (JFloat (sign +:+ ip +:+ frac +:+ ex), s4)
        end
      else None
  | EmptyString => None
  end.

(** [s] with the keyword [kw] removed from its head. *)
Fixpoint after (kw s : string) : option string :=
  match kw, s with
  | EmptyString, _ => Some s
  | String a kw', String b s' => if Ascii.eqb a b then after kw' s' else None
  | String _ _, EmptyString => None
  end.

Definition scan_atom (s : string) : option (json * string) :=
  match after "null" s with Some r => Some (JNull, r) | None =>
  match after "true" s with Some r => Some (JBool true, r) | None =>
  match after "false" s with Some r => Some (JBool false, r) | None =>
  match scan_number s with Some res => Some res | None =>
  match after "NaN" s with Some r => Some (JFloat "NaN", r) | None =>
  match after "Infinity" s with Some r => Some (JFloat "Infinity", r) | None =>
  match after "-Infinity" s with Some r => Some (JFloat "-Infinity", r) | None =>
  None end end end end end end end.

(** The decoder proper, by recursive descent.  [parse_value] reads one
    value at the head of [s]; [parse_elems] the elements of an array
    after its bracket; [parse_members] the members of an object from
    just after the opening quote of a key.  Each returns the rest of
    the text. *)
Fixpoint parse_value (fuel : nat) (s : string) : option (json * string) :=
  match fuel with
  | O => None
  | S f =>
      match s with
      | String c r =>
          if (code c =? 34)%N then
            '(str, rest) ← scan_string r; Some (JStr str, rest)
          else if (code c =? 123)%N then
            match skip_ws r with
            | String d r2 =>
                if (code d =? 125)%N then Some (JObj [], r2)
                else if (code d =? 34)%N then parse_members f r2 []
                else None
            | EmptyString => None
            end
          else if (code c =? 91)%N then
            match skip_ws r with
            | String "]" r2 => Some (JArr [], r2)
            | r1 => parse_elems f r1 []
            end
          else scan_atom s
      | EmptyString => None
      end
  end
with parse_elems (fuel : nat) (s : string) (acc : list json)
  : option (json * string) :=
  match fuel with
  | O => None
  | S f =>
      '(v, r) ← parse_value f s;
      match skip_ws r with
      | String "]" r' => Some (JArr (rev (v :: acc)), r')
      | String "," r' => parse_elems f (skip_ws r') (v :: acc)
      | _ => None
      end
  end
with parse_members (fuel : nat) (s : string) (acc : list (string * json))
  : option (json * string) :=
  match fuel with
  | O => None
  | S f =>
      '(k, r) ← scan_string s;
      match skip_ws r with
      | String ":" r1 =>
          '(v, r2) ← parse_value f (skip_ws r1);
          let acc' := dict_set k v acc in
          match skip_ws r2 with
          | String "}" r3 => Some (JObj acc', r3)
          | String "," r3 =>
              match skip_ws r3 with
              | String d r4 =>
                  if (code d =? 34)%N then parse_members f r4 acc' else None
              | EmptyString => None
              end
          | _ => None
          end
      | _ => None
      end
  end.

(** [json.loads(s)]; [None] stands for the decoding error.  The descent
    is given two units of fuel per character: each call of the three
    functions above either consumes a character or is followed by one
    that does. *)
Definition loads (s : string) : option json :=
  '(v, r) ← parse_value (2 * String.length s + 2) (skip_ws s);
  match skip_ws r with
  | EmptyString => Some v
  | _ => None
  end.

End Json.

(** ** Lines of a text *)

Module Lines.

Definition nl : string := String "010" EmptyString.

(** The line breaks of [str.splitlines] among the ASCII code points:
    LF, VT, FF, FS, GS, RS (CR is handled apart, for CR LF). *)
Definition is_break (c : ascii) : bool :=
  let n := code c in
  ((n =? 10) || (n =? 11) || (n =? 12) || (n =? 28) || (n =? 29) || (n =? 30))%N.

Definition flush (cur : string) : list string :=
  match cur with
  | EmptyString => []
  | _ => [cur]
  end.

Fixpoint splitlines_go (cur s : string) : list string :=
  match s with
  | EmptyString => flush cur
  | String c r =>
      if (code c =? 13)%N then
        match r with
        | String d r' =>
            if (code d =? 10)%N then cur :: splitlines_go EmptyString r'
            else cur :: splitlines_go EmptyString r
        | EmptyString => [cur]
        end
      else if is_break c then cur :: splitlines_go EmptyString r
      else splitlines_go (cur +:+ String c EmptyString) r
  end.

(** [s.splitlines()]: the lines without their line breaks. *)
Definition splitlines (s : string) : list string := splitlines_go EmptyString s.

Fixpoint readlines_go (cur s : string) : list string :=
  match s with
  | EmptyString => flush cur
  | String c r =>
      if (code c =? 13)%N then
        match r with
        | String d r' =>
            if (code d =? 10)%N then (cur +:+ nl) :: readlines_go EmptyString r'
            else (cur +:+ nl) :: readlines_go EmptyString r
        | EmptyString => [cur +:+ nl]
        end
      else if (code c =? 10)%N then (cur +:+ nl) :: readlines_go EmptyString r
      else readlines_go (cur +:+ String c EmptyString) r
  end.

(** [f.readlines()] on a file opened in text mode: each line keeps its
    line break, and CR LF and CR are read as LF. *)
Definition readlines (s : string) : list string := readlines_go EmptyString s.

(** [s[:n]] *)
Fixpoint take_chars (n : nat) (s : string) : string :=
  match n, s with
  | S n', String c r => String c (take_chars n' r)
  | _, _ => EmptyString
  end.

End Lines.

(** ** Exceptions, the world and the monad of the script *)

Inductive exn : Type :=
| ConnectionError     (* requests: no answer, or a timeout *)
| HTTPError           (* requests: [raise_for_status] *)
| JSONDecodeError     (* the body or the line is not JSON *)
| AttributeError
| TypeError
| KeyError
| ValueError
| OSError
| UnboundLocalError.

(** [except requests.RequestException] *)
Definition is_request_exception (e : exn) : bool :=
  match e with
  | ConnectionError | HTTPError => true
  | _ => false
  end.

(** [except ValueError] *)
Definition is_value_error (e : exn) : bool :=
  match e with
  | ValueError | JSONDecodeError => true
  | _ => false
  end.

(** [except Exception] *)
Definition is_exception (e : exn) : bool := true.

Inductive result (A : Type) : Type :=
| Ok (a : A)
| Raise (e : exn).
Arguments Ok {A} a.
Arguments Raise {A} e.

(** What [print] writes: a text, a text followed by an exception, or a
    text followed by a decoded document. *)
Inductive output : Type :=
| Print (s : string)
| PrintExn (s : string) (e : exn)
| PrintJson (s : string) (d : json).

(** The cache file [bgp_tools_cache.jsonl].  [readable] is false when
    opening or decoding it for reading raises. *)
Record file : Type := File {
  mtime : Z;
  content : string;
  readable : bool
}.

(** What the script can change: the cache file, if there is one, and the
    requests sent so far. *)
Record store : Type := Store {
  cache : option file;
  requests : list string
}.

Inductive http_outcome : Type :=
| NoAnswer
| Response (status : Z) (body : string).

(** How writing the cache file goes: well; [open] raises and the file is
    left as it was; or the file is opened, hence created or truncated,
    and the write raises after [written] characters. *)
Inductive write_fault : Type :=
| NoFault
| OpenFault
| WriteFault (written : nat).

(** What the script cannot change: the clock, in seconds, the answers of
    the network and the behaviour of the disk. *)
Record env : Type := Env {
  now : Z;
  http : string -> http_outcome;
  disk : write_fault
}.

(** The two places where the value of a [float] matters: [x == n] for an
    [int] [n], and the truth value of [x]. *)
Record float_ops : Type := FloatOps {
  float_eq_int : string -> Z -> bool;
  float_truth : string -> bool
}.

Definition M (A : Type) : Type := store -> result A * store * list output.

Module Run.

Definition ret {A} (a : A) : M A := fun st => (Ok a, st, []).

Definition raise {A} (e : exn) : M A := fun st => (Raise e, st, []).

Definition bind {A B} (m : M A) (k : A -> M B) : M B :=
  fun st =>
    match m st with
    | (Ok a, st', o) => let '(r, st'', o') := k a st' in (r, st'', o ++ o')
    | (Raise e, st', o) => (Raise e, st', o)
    end.

(** [try: m except <catches> as e: h e] *)
Definition try_catch {A} (m : M A) (catches : exn -> bool) (h : exn -> M A)
  : M A :=
  fun st =>
    match m st with
    | (Raise e, st', o) =>
        if catches e then let '(r, st'', o') := h e st' in (r, st'', o ++ o')
        else (Raise e, st', o)
    | res => res
    end.

Definition lift {A} (r : result A) : M A := fun st => (r, st, []).

Definition print (o : output) : M unit := fun st => (Ok tt, st, [o]).

End Run.

Import Run.

Notation "'do' x <- m ; k" := (bind m (fun x => k))
  (at level 10, x name, m at level 100, k at level 200).
Notation "'run' m ; k" := (bind m (fun _ => k))
  (at level 10, m at level 100, k at level 200).

Definition value {A} (r : result A * store * list output) : result A := r.1.1.
Definition final {A} (r : result A * store * list output) : store := r.1.2.
Definition trace {A} (r : result A * store * list output) : list output := r.2.

(** ** The operating system and the network *)

Module Sys.

(** [os.path.exists(BGPT_CACHE_FILE)] *)
Definition path_exists : M bool :=
  fun st =>
    (Ok match cache st with Some _ => true | None => false end, st, []).

(** [os.path.getmtime(BGPT_CACHE_FILE)] *)
Definition getmtime : M Z :=
  fun st =>
    match cache st with
    | Some f => (Ok (mtime f), st, [])
    | None => (Raise OSError, st, [])
    end.

(** [with open(BGPT_CACHE_FILE, "r", encoding="utf-8") as f:
      return f.readlines()] *)
Definition read_cache : M (list string) :=
  fun st =>
    match cache st with
    | Some f =>
        if readable f then (Ok (Lines.readlines (content f)), st, [])
        else (Raise OSError, st, [])
    | None => (Raise OSError, st, [])
    end.

Definition rewritten (e : env) (old : option file) (text : string) : file :=
  {| mtime := now e;
     content := text;
     readable := from_option readable true old |}.

(** [with open(BGPT_CACHE_FILE, "w", encoding="utf-8") as f:
      f.write(content)] *)
Definition write_cache (e : env) (text : string) : M unit :=
  fun st =>
    match disk e with
    | NoFault =>
        (Ok tt,
         {| cache := Some (rewritten e (cache st) text);
            requests := requests st |}, [])
    | OpenFault => (Raise OSError, st, [])
    | WriteFault n =>
        (Raise OSError,
         {| cache := Some (rewritten e (cache st) (Lines.take_chars n text));
            requests := requests st |}, [])
    end.

(** [requests.get(url, ...)]: the request is sent, and the answer, if
    one comes in time, is returned. *)
Definition requests_get (e : env) (url : string) : M (Z * string) :=
  fun st =>
    let st' := {| cache := cache st; requests := requests st ++ [url] |} in
    match http e url with
    | NoAnswer => (Raise ConnectionError, st', [])
    | Response status body => (Ok (status, body), st', [])
    end.

(** [response.raise_for_status()] *)
Definition raise_for_status (response : Z * string) : M unit :=
  if (400 <=? response.1) && (response.1 <? 600) then raise HTTPError
  else ret tt.

(** [response.json()] *)
Definition response_json (response : Z * string) : M json :=
  match Json.loads response.2 with
  | Some d => ret d
  | None => raise JSONDecodeError
  end.

End Sys.

(** ** Python's operations on decoded documents *)

Module Py.

(** [d.get(k, default)] *)
Definition get (d : json) (k : string) (default : json) : result json :=
  match d with
  | JObj m => Ok (from_option (fun v => v) default (Json.dict_get k m))
  | _ => Raise AttributeError
  end.

(** [v == s] for a string [s] *)
Definition eq_str (v : json) (s : string) : bool :=
  match v with
  | JStr s' => String.eqb s' s
  | _ => false
  end.

(** [v == n] for an [int] [n]: numbers compare by value, [True] is 1 and
    [False] is 0, nothing else equals a number. *)
Definition eq_int (fl : float_ops) (v : json) (n : Z) : bool :=
  match v with
  | JInt m => m =? n
  | JBool b => (if b then 1 else 0) =? n
  | JFloat lit => float_eq_int fl lit n
  | _ => false
  end.

(** The truth value of [v], as in [if v:]. *)
Definition truth (fl : float_ops) (v : json) : bool :=
  match v with
  | JNull => false
  | JBool b => b
  | JInt m => negb (m =? 0)
  | JFloat lit => float_truth fl lit
  | JStr s => negb (String.eqb s EmptyString)
  | JArr l => match l with [] => false | _ => true end
  | JObj m => match m with [] => false | _ => true end
  end.

(** [for x in v]: the elements of a list, the keys of a dict, the
    characters of a string. *)
Definition iter (v : json) : result (list json) :=
  match v with
  | JArr l => Ok l
  | JObj m => Ok (map (fun kv => JStr kv.1) m)
  | JStr s => Ok (map JStr (chars s))
  | _ => Raise TypeError
  end.

(** [k in v] for a string [k] *)
Definition contains_str (k : string) (v : json) : result bool :=
  match v with
  | JObj m => Ok (bool_decide (is_Some (Json.dict_get k m)))
  | JArr l => Ok (existsb (fun x => eq_str x k) l)
  | JStr s => Ok (contains k s)
  | _ => Raise TypeError
  end.

(** [v[k]] for a string [k] *)
Definition getitem (v : json) (k : string) : result json :=
  match v with
  | JObj m =>
      match Json.dict_get k m with
      | Some x => Ok x
      | None => Raise KeyError
      end
  | _ => Raise TypeError
  end.

End Py.

(** ** The bulk table cache *)

Definition BGPT_CACHE_EXPIRATION : Z := 86400.

Definition bgptools_url : string := "https://bgp.tools/table.jsonl".

(** The first block of [get_bgptools_lines]: the lines of a fresh cache
    file, or nothing when the function goes on to the download. *)
Definition fresh_cache_lines (e : env) : M (option (list string)) :=
  do present <- Sys.path_exists;
  if present then
    do mod_time <- Sys.getmtime;
    if now e - mod_time <? BGPT_CACHE_EXPIRATION then
      try_catch (do lines <- Sys.read_cache; ret (Some lines))
        is_exception
        (fun err =>
           run print (PrintExn "Error reading cache file: " err);
           ret None)
    else ret None
  else ret None.

(** The handler of the download.  The inner handler binds the same name
    [e] as the outer one, and Python unbinds the name when the inner
    handler ends: [bound] is what [e] holds at the last [print]. *)
Definition download_failed (err : exn) : M (list string) :=
  do present <- Sys.path_exists;
  do attempt <-
    (if present then
       try_catch (do lines <- Sys.read_cache; ret (inl lines))
         is_exception
         (fun err' =>
            run print (PrintExn "Error reading fallback cache file: " err');
            ret (inr None))
     else ret (inr (Some err)));
  match attempt with
  | inl lines => ret lines
  | inr bound =>
      match bound with
      | Some err'' =>
          run print (PrintExn "Error fetching bgp.tools data: " err'');
          ret []
      | None => raise UnboundLocalError
      end
  end.

Definition download (e : env) : M (list string) :=
  try_catch
    (run print (Print "Downloading fresh bgp.tools data (this may take a moment)...");
     do response <- Sys.requests_get e bgptools_url;
     run Sys.raise_for_status response;
     let text := response.2 in
     run Sys.write_cache e text;
     ret (Lines.splitlines text))
    is_exception
    download_failed.

Definition get_bgptools_lines (e : env) : M (list string) :=
  do cached <- fresh_cache_lines e;
  match cached with
  | Some lines => ret lines
  | None => download e
  end.

(** ** The three adapters *)

(** [for entry in entries: if "prefix" in entry:
      prefixes.append(entry["prefix"])] *)
Fixpoint collect_prefixes (entries prefixes : list json) : M (list json) :=
  match entries with
  | [] => ret prefixes
  | entry :: rest =>
      do has <- lift (Py.contains_str "prefix" entry);
      if has then
        do p <- lift (Py.getitem entry "prefix");
        collect_prefixes rest (prefixes ++ [p])
      else collect_prefixes rest prefixes
  end.

(** [for entry in data.get("data", {}).get(field, []): ...] *)
Definition collect_field (data : json) (field : string) (prefixes : list json)
  : M (list json) :=
  do inner <- lift (Py.get data "data" (JObj []));
  do listed <- lift (Py.get inner field (JArr []));
  do entries <- lift (Py.iter listed);
  collect_prefixes entries prefixes.

(** The request shared by the two lookup adapters: the response, or
    nothing once the failure has been reported. *)
Definition lookup (e : env) (url label : string) : M (option (Z * string)) :=
  try_catch
    (do response <- Sys.requests_get e url;
     run Sys.raise_for_status response;
     ret (Some response))
    is_request_exception
    (fun err => run print (PrintExn label err); ret None).

Definition fetch_prefixes_bgpview (e : env) (asn : string) : M (list json) :=
  let url := "https://api.bgpview.io/asn/" +:+ asn +:+ "/prefixes" in
  do answer <-
    lookup e url ("Error fetching data from BGPView for " +:+ asn +:+ ": ");
  match answer with
  | None => ret []
  | Some response =>
      do data <- Sys.response_json response;
      do status <- lift (Py.get data "status" JNull);
      if negb (Py.eq_str status "ok") then
        run print (PrintJson ("BGPView API error for " +:+ asn +:+ ": ") data);
        ret []
      else
        do prefixes <- collect_field data "ipv4_prefixes" [];
        collect_field data "ipv6_prefixes" prefixes
  end.

Definition fetch_prefixes_ripe (e : env) (asn : string) : M (list json) :=
  let url :=
    "https://stat.ripe.net/data/announced-prefixes/data.json?resource=" +:+ asn in
  do answer <-
    lookup e url ("Error fetching data from RIPEstat for " +:+ asn +:+ ": ");
  match answer with
  | None => ret []
  | Some response =>
      do data <- Sys.response_json response;
      do status <- lift (Py.get data "status" JNull);
      if negb (Py.eq_str status "ok") then
        run print (PrintJson ("RIPEstat API error for " +:+ asn +:+ ": ") data);
        ret []
      else collect_field data "prefixes" []
  end.

(** [int(asn[2:]) if asn.startswith("AS") else int(asn)] *)
Definition numeric_asn_of (asn : string) : result Z :=
  match py_int (if startswith asn "AS" then slice_from 2 asn else asn) with
  | Some n => Ok n
  | None => Raise ValueError
  end.

(** The body of the [try] in the scan of the bulk table: the CIDR that
    the line contributes, if any. *)
Definition line_cidr (fl : float_ops) (numeric_asn : Z) (line : string)
  : result (option json) :=
  match Json.loads line with
  | None => Raise JSONDecodeError
  | Some entry =>
      match Py.get entry "ASN" JNull with
      | Raise err => Raise err
      | Ok number =>
          if Py.eq_int fl number numeric_asn then
            match Py.get entry "CIDR" JNull with
            | Raise err => Raise err
            | Ok cidr => Ok (if Py.truth fl cidr then Some cidr else None)
            end
          else Ok None
      end
  end.

(** [for line in lines: if line: try: ... except Exception: continue] *)
Fixpoint scan_lines (fl : float_ops) (numeric_asn : Z) (lines : list string)
    (prefixes : list json) : list json :=
  match lines with
  | [] => prefixes
  | line :: rest =>
      match line with
      | EmptyString => scan_lines fl numeric_asn rest prefixes
      | _ =>
          match line_cidr fl numeric_asn line with
          | Ok (Some cidr) => scan_lines fl numeric_asn rest (prefixes ++ [cidr])
          | _ => scan_lines fl numeric_asn rest prefixes
          end
      end
  end.

Definition fetch_prefixes_bgptools (fl : float_ops) (e : env) (asn : string)
  : M (list json) :=
  do parsed <-
    try_catch (do n <- lift (numeric_asn_of asn); ret (Some n))
      is_value_error
      (fun _ => run print (Print ("Invalid ASN format: " +:+ asn)); ret None);
  match parsed with
  | None => ret []
  | Some numeric_asn =>
      do lines <- get_bgptools_lines e;
      ret (scan_lines fl numeric_asn lines [])
  end.

(** ** The aggregator *)

(** [for prefix in prefixes: print("  " + prefix);
      combined_prefixes.add(prefix)]; adding a string to anything but a
    string raises. *)
Fixpoint add_prefixes (prefixes : list json) (combined : gset string)
  : M (gset string) :=
  match prefixes with
  | [] => ret combined
  | prefix :: rest =>
      match prefix with
      | JStr p =>
          run print (Print ("  " +:+ p));
          add_prefixes rest ({[ p ]} ∪ combined)
      | _ => raise TypeError
      end
  end.

(** One adapter's share of [process_asn]: its results are listed and
    added, or their absence is reported. *)
Definition merge_source (found nothing : string) (prefixes : list json)
    (combined : gset string) : M (gset string) :=
  match prefixes with
  | [] => run print (Print nothing); ret combined
  | _ => run print (Print found); add_prefixes prefixes combined
  end.

(** [sorted(combined_prefixes)]: strings compare by code point. *)
Definition sorted (combined : gset string) : list string :=
  merge_sort String.le (elements combined).

Fixpoint print_all (prefixes : list string) : M unit :=
  match prefixes with
  | [] => ret tt
  | prefix :: rest => run print (Print ("  " +:+ prefix)); print_all rest
  end.

Definition process_asn (fl : float_ops) (e : env) (asn : string)
  : M (list string) :=
  let combined_prefixes : gset string := ∅ in
  run print (Print ("Fetching from BGPView for " +:+ asn +:+ "..."));
  do prefixes_bgpview <- fetch_prefixes_bgpview e asn;
  do combined_prefixes <-
    merge_source "BGPView results:" "No results from BGPView."
      prefixes_bgpview combined_prefixes;
  run print (Print (Lines.nl +:+ "Fetching from RIPEstat for " +:+ asn +:+ "..."));
  do prefixes_ripe <- fetch_prefixes_ripe e asn;
  do combined_prefixes <-
    merge_source "RIPEstat results:" "No results from RIPEstat."
      prefixes_ripe combined_prefixes;
  run print (Print (Lines.nl +:+ "Fetching from bgp.tools for " +:+ asn
                    +:+ " (using cached data if available)..."));
  do prefixes_bgptools <- fetch_prefixes_bgptools fl e asn;
  do combined_prefixes <-
    merge_source "bgp.tools results:" "No results from bgp.tools."
      prefixes_bgptools combined_prefixes;
  let sorted_prefixes := sorted combined_prefixes in
  run print (Print (Lines.nl +:+ "Combined unique IP ranges for " +:+ asn +:+ ":"));
  run print_all sorted_prefixes;
  ret sorted_prefixes.

(** ** The command line *)

(** [main] works on the cache file, on the folders and on the output
    files.  The intermediate folders that [os.makedirs] creates are not
    tracked. *)
Record session : Type := Session {
  base : store;
  folders : gset string;
  outputs : gmap string string
}.

(** The world in which one ASN is processed: the clock, the network and
    the disk of the cache, and how writing each output file goes. *)
Record host : Type := Host {
  sys : env;
  out_fault : string -> write_fault
}.

(** How the process ends: [main] returns, [sys.exit] is called, or an
    exception reaches the top. *)
Inductive outcome : Type :=
| Completed
| Exit (status : Z)
| Uncaught (err : exn).

Fixpoint last_char (s : string) : option ascii :=
  match s with
  | EmptyString => None
  | String c EmptyString => Some c
  | String _ r => last_char r
  end.

(** [os.path.join(a, b)] on POSIX *)
Definition path_join (a b : string) : string :=
  if startswith b "/" then b
  else
    match last_char a with
    | None => b
    | Some c => if Ascii.eqb c "/" then a +:+ b else a +:+ "/" +:+ b
    end.

(** What [for prefix in combined_prefixes: f.write(prefix + "\n")]
    writes. *)
Fixpoint output_text (prefixes : list string) : string :=
  match prefixes with
  | [] => EmptyString
  | prefix :: rest => prefix +:+ Lines.nl +:+ output_text rest
  end.

(** [with open(output_filename, "w", encoding="utf-8") as f: ...] *)
Definition write_output (h : host) (path : string) (prefixes : list string)
    (files : gmap string string) : result unit * gmap string string :=
  match out_fault h path with
  | NoFault => (Ok tt, <[path := output_text prefixes]> files)
  | OpenFault => (Raise OSError, files)
  | WriteFault n =>
      (Raise OSError,
       <[path := Lines.take_chars n (output_text prefixes)]> files)
  end.

(** The body of the loop of [main], for one ASN of the command line. *)
Definition handle_asn (fl : float_ops) (h : host) (dest asn_input : string)
    (ss : session) : result unit * session * list output :=
  let asn := normalize_asn asn_input in
  let processing := Print (Lines.nl +:+ "Processing " +:+ asn +:+ "...") in
  let '(r, st', o) := process_asn fl (sys h) asn (base ss) in
  match r with
  | Raise err =>
      (Raise err,
       {| base := st'; folders := folders ss; outputs := outputs ss |},
       processing :: o)
  | Ok combined_prefixes =>
      let output_filename := path_join dest (asn +:+ ".txt") in
      match write_output h output_filename combined_prefixes (outputs ss) with
      | (Ok _, files) =>
          (Ok tt,
           {| base := st'; folders := folders ss; outputs := files |},
           processing :: o
           ++ [Print ("Output written to " +:+ output_filename +:+ Lines.nl)])
      | (Raise err, files) =>
          (Ok tt,
           {| base := st'; folders := folders ss; outputs := files |},
           processing :: o
           ++ [PrintExn ("Error writing " +:+ asn +:+ " to file: ") err])
      end
  end.

(** [for asn_input in args.asns: ...]; the [i]-th ASN is processed in
    the world [hosts i]. *)
Fixpoint main_loop (fl : float_ops) (hosts : nat -> host) (dest : string)
    (i : nat) (asns : list string) (ss : session)
  : outcome * session * list output :=
  match asns with
  | [] => (Completed, ss, [])
  | asn_input :: rest =>
      let '(r, ss', o) := handle_asn fl (hosts i) dest asn_input ss in
      match r with
      | Raise err => (Uncaught err, ss', o)
      | Ok _ =>
          let '(r', ss'', o') := main_loop fl hosts dest (S i) rest ss' in
          (r', ss'', o ++ o')
      end
  end.


(** ** Worlds used in the examples *)

Module Examples.

(** [s] between double quotes. *)
Definition quoted (s : string) : string :=
  String "034" (s +:+ String "034" EmptyString).

Definition no_floats : float_ops :=
  {| float_eq_int := fun _ _ => false; float_truth := fun _ => true |}.

Definition empty_store : store := {| cache := None; requests := [] |}.

Definition with_cache (f : file) : store :=
  {| cache := Some f; requests := [] |}.

Definition offline : env :=
  {| now := 1000000; http := fun _ => NoAnswer; disk := NoFault |}.

(** The bulk table answers with [body]; the two lookup services do not
    answer. *)
Definition table_only (body : string) (d : write_fault) : env :=
  {| now := 1000000;
     http := fun url =>
       if String.eqb url bgptools_url then Response 200 body else NoAnswer;
     disk := d |}.

(** Every service answers 200 with [body]. *)
Definition answering (body : string) : env :=
  {| now := 1000000; http := fun _ => Response 200 body; disk := NoFault |}.

(** [{"status": "ok", "data": {"prefixes": [1]}}] *)
Definition numeric_entries : string :=
  "{" +:+ quoted "status" +:+ ": " +:+ quoted "ok" +:+ ", "
  +:+ quoted "data" +:+ ": {" +:+ quoted "prefixes" +:+ ": [1]}}".

Definition bad_line : string := "{bad json".

(** [{"ASN":62419,"CIDR":"10.0.0.0/24"}] *)
Definition good_line : string :=
  "{" +:+ quoted "ASN" +:+ ":62419," +:+ quoted "CIDR" +:+ ":"
  +:+ quoted "10.0.0.0/24" +:+ "}".

(** A bulk table of three lines: [bad_line], [good_line] and an empty
    line. *)
Definition small_table : string :=
  bad_line +:+ Lines.nl +:+ good_line +:+ Lines.nl +:+ Lines.nl.

(** [[{"prefix":"p1"},{"prefix":"p2"},...]] *)
Definition entries (prefixes : list string) : string :=
  "[" +:+ String.concat ","
            (map (fun p => "{" +:+ quoted "prefix" +:+ ":" +:+ quoted p +:+ "}")
               prefixes)
  +:+ "]".

(** [{"status":"ok","data":{"ipv4_prefixes":[...],"ipv6_prefixes":[]}}] *)
Definition bgpview_body (prefixes : list string) : string :=
  "{" +:+ quoted "status" +:+ ":" +:+ quoted "ok" +:+ ","
  +:+ quoted "data" +:+ ":{" +:+ quoted "ipv4_prefixes" +:+ ":"
  +:+ entries prefixes +:+ "," +:+ quoted "ipv6_prefixes" +:+ ":[]}}".

(** [{"status":"ok","data":{"prefixes":[...]}}] *)
Definition ripe_body (prefixes : list string) : string :=
  "{" +:+ quoted "status" +:+ ":" +:+ quoted "ok" +:+ ","
  +:+ quoted "data" +:+ ":{" +:+ quoted "prefixes" +:+ ":"
  +:+ entries prefixes +:+ "}}".

(** BGPView announces [pa], RIPEstat announces [pb], the bulk table
    answers with [table]. *)
Definition serving (pa pb : list string) (table : string) : env :=
  {| now := 1000000;
     http := fun url =>
       if String.prefix "https://api.bgpview.io/" url
       then Response 200 (bgpview_body pa)
       else if String.prefix "https://stat.ripe.net/" url
       then Response 200 (ripe_body pb)
       else Response 200 table;
     disk := NoFault |}.

Definition net_a : string := "10.0.0.0/24".
Definition net_b : string := "10.0.1.0/24".

Definition old_table : string := "old" +:+ Lines.nl.
Definition new_table : string := "new" +:+ Lines.nl.

(** Cache files written one hour and twenty-five hours before
    [now offline]. *)
Definition hour_old : file :=
  {| mtime := 1000000 - 3600; content := old_table; readable := true |}.
Definition day_old : file :=
  {| mtime := 1000000 - 25 * 3600; content := old_table; readable := true |}.
Definition hour_old_unreadable : file :=
  {| mtime := 1000000 - 3600; content := old_table; readable := false |}.
Definition day_old_unreadable : file :=
  {| mtime := 1000000 - 25 * 3600; content := old_table; readable := false |}.

End Examples.

(** ** Worlds used for the further properties *)

Module Runs.

(** [{"status":"error"}] *)
Definition not_found : string :=
  "{" +:+ Examples.quoted "status" +:+ ":" +:+ Examples.quoted "error" +:+ "}".

(** [{"ASN":62419,"CIDR":5}] *)
Definition numeric_cidr : string :=
  "{" +:+ Examples.quoted "ASN" +:+ ":62419," +:+ Examples.quoted "CIDR"
  +:+ ":5}".

(** A host where every output file is written without fault. *)
Definition writing (e : env) : host :=
  {| sys := e; out_fault := fun _ => NoFault |}.

(** A host where no output file can be opened. *)
Definition read_only (e : env) : host :=
  {| sys := e; out_fault := fun _ => OpenFault |}.

(** A session with the current folder only. *)
Definition fresh_session : session :=
  {| base := Examples.empty_store; folders := {[ "." ]}; outputs := ∅ |}.

End Runs.

(** ** Vocabulary of the statements *)

(** A text that does not begin with white space. *)
Definition headed (s : string) : Prop :=
  match s with
  | EmptyString => True
  | String c _ => isspace c = false
  end.

(** The store once the request for the bulk table has been sent. *)
Definition requested (st : store) : store :=
  {| cache := cache st; requests := requests st ++ [bgptools_url] |}.

(** The exception that the request for the bulk table ends in, if any. *)
Definition refresh_error (e : env) : option exn :=
  match http e bgptools_url with
  | NoAnswer => Some ConnectionError
  | Response status _ =>
      if (400 <=? status) && (status <? 600) then Some HTTPError else None
  end.

Definition downloading : output :=
  Print "Downloading fresh bgp.tools data (this may take a moment)...".

(** No fresh readable cache file: [get_bgptools_lines] goes on to the
    download. *)
Definition must_refresh (e : env) (st : store) : Prop :=
  match cache st with
  | Some f => 86400 <= now e - mtime f \/ readable f = false
  | None => True
  end.

(** What one line of the bulk table adds to the result. *)
Definition contribution (fl : float_ops) (numeric_asn : Z) (line : string)
  : option json :=
  match line_cidr fl numeric_asn line with
  | Ok (Some cidr) => Some cidr
  | _ => None
  end.

(** In the store [st] the three adapters, called in the order of
    [process_asn], return the prefix strings [a], [b] and [c]. *)
Definition sources_return (fl : float_ops) (e : env) (asn : string)
    (st : store) (a b c : list string) : Prop :=
  let ra := fetch_prefixes_bgpview e asn st in
  let rb := fetch_prefixes_ripe e asn (final ra) in
  let rc := fetch_prefixes_bgptools fl e asn (final rb) in
  value ra = Ok (JStr <$> a)
  /\ value rb = Ok (JStr <$> b)
  /\ value rc = Ok (JStr <$> c).

(** A text made of white space only. *)
Fixpoint blank (s : string) : bool :=
  match s with
  | EmptyString => true
  | String c r => isspace c && blank r
  end.

(** A computation that leaves the store as it found it. *)
Definition keeps_store {A : Type} (m : M A) : Prop :=
  forall st : store, final (m st) = st.

(** The store once a request to [url] has been sent. *)
Definition asked (url : string) (st : store) : store :=
  {| cache := cache st; requests := requests st ++ [url] |}.

Definition bgpview_url (asn : string) : string :=
  "https://api.bgpview.io/asn/" +:+ asn +:+ "/prefixes".

Definition ripe_url (asn : string) : string :=
  "https://stat.ripe.net/data/announced-prefixes/data.json?resource=" +:+ asn.

(** The request to [url] does not get a usable answer: none comes, or
    its status is an error. *)
Definition request_fails (e : env) (url : string) : Prop :=
  match http e url with
  | NoAnswer => True
  | Response status _ => (400 <=? status) && (status <? 600) = true
  end.

(** A prefix that is a string. *)
Definition is_text (v : json) : bool :=
  match v with
  | JStr _ => true
  | _ => false
  end.

(** The lines that end the output of [process_asn]. *)
Definition listing (asn : string) (prefixes : list string) : list output :=
  Print (Lines.nl +:+ "Combined unique IP ranges for " +:+ asn +:+ ":")
  :: map (fun p => Print ("  " +:+ p)) prefixes.

(** The three parts of a run of [main] or of its loop. *)
Definition outcome_of {R : Type} (r : R * session * list output) : R := r.1.1.
Definition session_of {R : Type} (r : R * session * list output) : session :=
  r.1.2.
Definition printed {R : Type} (r : R * session * list output) : list output :=
  r.2.

(** The file that [main] writes for an ASN of the command line. *)
Definition output_path (dest asn_input : string) : string :=
  path_join dest (normalize_asn asn_input +:+ ".txt").

(** A text without any of the line breaks of [str.splitlines]. *)
Fixpoint plain (s : string) : bool :=
  match s with
  | EmptyString => true
  | String c r => negb (code c =? 13)%N && negb (Lines.is_break c) && plain r
  end.

(** * Properties *)

(** ** Characters and trimming *)

Section TextFacts.

Local Ltac by_cases c :=
  destruct c as [[] [] [] [] [] [] [] []]; vm_compute; reflexivity.

Lemma upper_char_idem (c : ascii) : upper_char (upper_char c) = upper_char c.
Proof. by_cases c. Qed.

Lemma isspace_upper_char (c : ascii) : isspace (upper_char c) = isspace c.
Proof. by_cases c. Qed.


Lemma isdigit_upper_char (c : ascii) : isdigit c = true -> upper_char c = c.
Proof. destruct c as [[] [] [] [] [] [] [] []]; vm_compute; congruence. Qed.

Lemma upper_idem (s : string) : upper (upper s) = upper s.
Proof.
  induction s as [|c s IH]; simpl; [reflexivity|].
  now rewrite upper_char_idem, IH.
Qed.

Lemma upper_app (s t : string) : upper (s +:+ t) = upper s +:+ upper t.
Proof.
  induction s as [|c s IH]; [reflexivity|].
  change (String (upper_char c) (upper (s +:+ t))
          = String (upper_char c) (upper s +:+ upper t)).
  now rewrite IH.
Qed.

Lemma lstrip_upper (s : string) : lstrip (upper s) = upper (lstrip s).
Proof.
  induction s as [|c s IH]; simpl; [reflexivity|].
  rewrite isspace_upper_char. now destruct (isspace c).
Qed.

Lemma rstrip_upper (s : string) : rstrip (upper s) = upper (rstrip s).
Proof.
  induction s as [|c s IH]; simpl; [reflexivity|].
  rewrite IH, isspace_upper_char.
  destruct (rstrip s); simpl; [now destruct (isspace c) | reflexivity].
Qed.

Lemma strip_upper (s : string) : strip (upper s) = upper (strip s).
Proof. unfold strip. now rewrite lstrip_upper, rstrip_upper. Qed.

Lemma lstrip_headed (s : string) : headed (lstrip s).
Proof.
  induction s as [|c s IH]; simpl; [exact I|].
  destruct (isspace c) eqn:E; [exact IH | exact E].
Qed.

Lemma lstrip_of_headed (s : string) : headed s -> lstrip s = s.
Proof. destruct s as [|c s]; simpl; [reflexivity|]. now intros ->. Qed.

Lemma rstrip_cons (c : ascii) (s : string) :
  isspace c = false -> rstrip (String c s) = String c (rstrip s).
Proof. intros H. simpl. rewrite H. now destruct (rstrip s). Qed.

Lemma rstrip_headed (s : string) : headed s -> headed (rstrip s).
Proof.
  destruct s as [|c s]; [exact (fun H => H)|].
  intros H. rewrite rstrip_cons by exact H. exact H.
Qed.

Lemma rstrip_idem (s : string) : rstrip (rstrip s) = rstrip s.
Proof.
  induction s as [|c s IH]; [reflexivity|].
  simpl rstrip at 2 3.
  destruct (rstrip s) as [|d t] eqn:E.
  - destruct (isspace c) eqn:Ec; [reflexivity|].
    simpl. now rewrite Ec.
  - change (match rstrip (String d t) with
            | EmptyString =>
                if isspace c then EmptyString else String c EmptyString
            | r' => String c r'
            end = String c (String d t)).
    now rewrite IH.
Qed.

Lemma strip_idem (s : string) : strip (strip s) = strip s.
Proof.
  unfold strip.
  rewrite (lstrip_of_headed (rstrip (lstrip s))).
  - apply rstrip_idem.
  - apply rstrip_headed, lstrip_headed.
Qed.

Lemma all_digits_upper (s : string) : all_digits s = true -> upper s = s.
Proof.
  induction s as [|c s IH]; simpl; [reflexivity|].
  intros [Hc Hs]%andb_prop. now rewrite isdigit_upper_char, IH.
Qed.

Lemma decimal_not_AS (d : string) :
  is_decimal d = true -> startswith d "AS" = false.
Proof.
  destruct d as [|c d]; [discriminate|].
  intros [Hc _]%andb_prop. unfold startswith.
  destruct c as [[] [] [] [] [] [] [] []];
    try (vm_compute in Hc; discriminate Hc); reflexivity.
Qed.

(** The text that [normalize_asn] works on is left alone by [strip] and
    by [upper]. *)
Lemma canonical_fixed (s : string) :
  let r := upper (strip s) in
  upper r = r /\ rstrip r = r /\ headed r.
Proof.
  simpl. split; [apply upper_idem|]. split.
  - unfold strip. rewrite <- rstrip_upper. apply rstrip_idem.
  - rewrite <- strip_upper. unfold strip. apply rstrip_headed, lstrip_headed.
Qed.

Lemma AS_prefixed_fixed (r : string) :
  upper r = r -> rstrip r = r ->
  upper (strip ("AS" +:+ r)) = "AS" +:+ r.
Proof.
  intros Hu Hr.
  change ("AS" +:+ r) with (String "A" (String "S" r)).
  unfold strip. rewrite lstrip_of_headed by reflexivity.
  rewrite !rstrip_cons by reflexivity. rewrite Hr.
  simpl. now rewrite Hu.
Qed.

Lemma startswith_AS (r : string) : startswith ("AS" +:+ r) "AS" = true.
Proof. destruct r; reflexivity. Qed.

End TextFacts.

(** ** The normalizer *)

(** C8. The four spellings ["62419"], ["as62419"], ["AS62419"] and
    ["  AS62419  "] all normalize to ["AS62419"]. *)
Theorem normalize_asn_examples :
  normalize_asn "62419" = "AS62419"
  /\ normalize_asn "as62419" = "AS62419"
  /\ normalize_asn "AS62419" = "AS62419"
  /\ normalize_asn "  AS62419  " = "AS62419".
Proof. repeat split; reflexivity. Qed.

(** C9. Normalizing twice is normalizing once. *)
Theorem normalize_asn_idempotent (s : string) :
  normalize_asn (normalize_asn s) = normalize_asn s.
Proof.
  unfold normalize_asn.
  destruct (canonical_fixed s) as (Hu & Hr & Hh).
  set (r := upper (strip s)) in *.
  destruct (startswith r "AS") eqn:E; simpl.
  - assert (Hfix : upper (strip r) = r).
    { unfold strip. now rewrite lstrip_of_headed, Hr, Hu. }
    now rewrite Hfix, E.
  - rewrite AS_prefixed_fixed by assumption.
    now rewrite startswith_AS.
Qed.

(** C2, as the code has it.  Every input is accepted, and the result is
    led by [AS] and upper case.  What follows [AS] is a non-negative
    integer when the trimmed, upper-cased input is a run of decimal
    digits, with or without [AS] before it; the normalizer checks nothing
    else. *)
Theorem normalize_asn_shape (s : string) :
  startswith (normalize_asn s) "AS" = true
  /\ upper (normalize_asn s) = normalize_asn s
  /\ (forall d : string,
        is_decimal d = true ->
        upper (strip s) = d \/ upper (strip s) = "AS" +:+ d ->
        normalize_asn s = "AS" +:+ d
        /\ asn_well_formed (normalize_asn s) = true).
Proof.
  unfold normalize_asn.
  destruct (canonical_fixed s) as (Hu & Hr & Hh).
  set (r := upper (strip s)) in *.
  split; [|split].
  - destruct (startswith r "AS") eqn:E; simpl; [exact E | apply startswith_AS].
  - destruct (startswith r "AS") eqn:E; simpl; [exact Hu|].
    rewrite upper_app, Hu. reflexivity.
  - intros d Hd Hcase.
    assert (Hwf : asn_well_formed ("AS" +:+ d) = true).
    { unfold asn_well_formed.
      assert (Hud : upper ("AS" +:+ d) = "AS" +:+ d).
      { rewrite upper_app, (all_digits_upper d); [reflexivity|].
        destruct d; [discriminate | exact Hd]. }
      rewrite Hud, String.eqb_refl, startswith_AS.
      change (slice_from 2 ("AS" +:+ d)) with d. rewrite Hd. reflexivity. }
    destruct Hcase as [H | H]; rewrite H.
    + rewrite (decimal_not_AS d Hd). simpl. split; [reflexivity | exact Hwf].
    + rewrite startswith_AS. simpl.
      split; [reflexivity | exact Hwf].
Qed.

Lemma normalize_asn_shape_witness :
  normalize_asn "  as62419  " = "AS62419"
  /\ asn_well_formed (normalize_asn "  as62419  ") = true.
Proof.
  apply (proj2 (proj2 (normalize_asn_shape "  as62419  ")) "62419").
  - reflexivity.
  - right. reflexivity.
Defined.

(** What follows [AS] need not be a number: ["foo"] becomes ["ASFOO"],
    which [int] refuses. *)
Lemma normalize_asn_not_always_well_formed :
  normalize_asn "foo" = "ASFOO"
  /\ asn_well_formed (normalize_asn "foo") = false
  /\ numeric_asn_of (normalize_asn "foo") = Raise ValueError.
Proof. repeat split; reflexivity. Qed.

(** ** The bulk table cache *)

Ltac unfold_cache :=
  unfold get_bgptools_lines, fresh_cache_lines, download, download_failed,
    try_catch, bind, ret, raise, print, lift, Sys.path_exists, Sys.getmtime,
    Sys.read_cache, Sys.write_cache, Sys.requests_get, Sys.raise_for_status,
    requested, refresh_error, value, final, trace in *.

Lemma fresh_cache_served (e : env) (st : store) (f : file) :
  cache st = Some f ->
  now e - mtime f < BGPT_CACHE_EXPIRATION ->
  readable f = true ->
  get_bgptools_lines e st = (Ok (Lines.readlines (content f)), st, []).
Proof.
  intros Hc Hage Hr. apply Z.ltb_lt in Hage.
  destruct st as [c rq]. simpl in Hc. subst c.
  unfold_cache. simpl. rewrite Hage. simpl. rewrite Hr. reflexivity.
Qed.

(** Without a fresh readable cache file the function is its download
    part, after whatever the attempt to read the file printed. *)
Lemma stale_cache_downloads (e : env) (st : store) :
  match cache st with
  | Some f => (now e - mtime f <? BGPT_CACHE_EXPIRATION) && readable f
  | None => false
  end = false ->
  exists o,
    get_bgptools_lines e st
    = (value (download e st), final (download e st), o ++ trace (download e st)).
Proof.
  intros H. destruct st as [[f|] rq]; simpl in H.
  - unfold get_bgptools_lines, fresh_cache_lines, bind, try_catch,
    Sys.path_exists, Sys.getmtime, Sys.read_cache, ret, print, value, final,
    trace. simpl.
    destruct (now e - mtime f <? BGPT_CACHE_EXPIRATION); simpl in *.
    + rewrite H. simpl.
      destruct (download e _) as [[r st'] o'].
      now exists [PrintExn "Error reading cache file: " OSError].
    + destruct (download e _) as [[r st'] o']. now exists [].
  - unfold get_bgptools_lines, fresh_cache_lines, bind, try_catch,
    Sys.path_exists, Sys.getmtime, Sys.read_cache, ret, print, value, final,
    trace. simpl.
    destruct (download e _) as [[r st'] o']. now exists [].
Qed.

Lemma download_requests (e : env) (st : store) :
  requests (final (download e st)) = requests st ++ [bgptools_url].
Proof.
  destruct st as [c rq].
  unfold_cache. simpl.
  destruct (http e bgptools_url) as [|status body]; simpl.
  - destruct c as [f|]; simpl; [destruct (readable f)|]; reflexivity.
  - destruct ((400 <=? status) && (status <? 600)); simpl.
    + destruct c as [f|]; simpl; [destruct (readable f)|]; reflexivity.
    + destruct (disk e); simpl; try reflexivity;
        destruct c as [f|]; simpl;
        try destruct (readable f); reflexivity.
Qed.

(** C5, as the code has it.  A cache file that exists, is younger than
    86400 seconds and can be read is returned line by line, and nothing is
    requested from the network.  When the file is absent, or is not
    younger than 86400 seconds (say twenty-five hours old), or cannot be
    read, the bulk table is requested. *)
Theorem get_bgptools_lines_freshness (e : env) (st : store) :
  (forall f : file,
      cache st = Some f ->
      now e - mtime f < 86400 ->
      readable f = true ->
      value (get_bgptools_lines e st) = Ok (Lines.readlines (content f))
      /\ final (get_bgptools_lines e st) = st
      /\ trace (get_bgptools_lines e st) = [])
  /\ (cache st = None
      \/ (exists f : file,
             cache st = Some f
             /\ (86400 <= now e - mtime f \/ readable f = false)) ->
      requests (final (get_bgptools_lines e st))
      = requests st ++ [bgptools_url]).
Proof.
  split.
  - intros f Hc Hage Hr.
    rewrite (fresh_cache_served e st f Hc Hage Hr). repeat split.
  - intros H.
    destruct (stale_cache_downloads e st) as [o Ho].
    + destruct H as [-> | (f & -> & [Hage | Hr])]; [reflexivity | |].
      * apply andb_false_iff. left. apply Z.ltb_ge. exact Hage.
      * apply andb_false_iff. now right.
    + rewrite Ho. apply download_requests.
Qed.

Lemma get_bgptools_lines_freshness_witness :
  (value (get_bgptools_lines Examples.offline
            (Examples.with_cache Examples.hour_old))
   = Ok (Lines.readlines Examples.old_table)
   /\ final (get_bgptools_lines Examples.offline
               (Examples.with_cache Examples.hour_old))
      = Examples.with_cache Examples.hour_old
   /\ trace (get_bgptools_lines Examples.offline
               (Examples.with_cache Examples.hour_old)) = [])
  /\ requests (final (get_bgptools_lines Examples.offline
                        (Examples.with_cache Examples.day_old)))
     = [bgptools_url].
Proof.
  split.
  - apply (proj1 (get_bgptools_lines_freshness Examples.offline
                    (Examples.with_cache Examples.hour_old))
             Examples.hour_old).
    + reflexivity.
    + simpl. lia.
    + reflexivity.
  - apply (proj2 (get_bgptools_lines_freshness Examples.offline
                    (Examples.with_cache Examples.day_old))).
    right. exists Examples.day_old. split; [reflexivity|].
    left. simpl. lia.
Defined.

(** A cache file one hour old that cannot be read is not served: the
    bulk table is requested, and its lines are the result. *)
Lemma fresh_unreadable_cache_refetched :
  get_bgptools_lines (Examples.table_only Examples.new_table NoFault)
    (Examples.with_cache Examples.hour_old_unreadable)
  = (Ok ["new"],
     {| cache := Some {| mtime := 1000000;
                         content := Examples.new_table;
                         readable := false |};
        requests := [bgptools_url] |},
     [PrintExn "Error reading cache file: " OSError;
      Print "Downloading fresh bgp.tools data (this may take a moment)..."]).
Proof. reflexivity. Qed.

Lemma must_refresh_downloads (e : env) (st : store) :
  must_refresh e st ->
  value (get_bgptools_lines e st) = value (download e st)
  /\ final (get_bgptools_lines e st) = final (download e st).
Proof.
  intros H. destruct (stale_cache_downloads e st) as [o Ho].
  - unfold must_refresh in H. destruct (cache st) as [f|]; [|reflexivity].
    apply andb_false_iff. destruct H as [H | H]; [left | now right].
    now apply Z.ltb_ge.
  - rewrite Ho. split; reflexivity.
Qed.

(** C6, as the code has it.  When the request for the bulk table fails
    and a cache file that can be read exists, however old, its lines are
    returned, and nothing is printed about the failure; when no cache file
    exists, the empty list is returned and the failure is printed.  In
    both cases the call returns. *)
Theorem get_bgptools_lines_fallback (e : env) (st : store) (err : exn) :
  refresh_error e = Some err ->
  (forall f : file,
      cache st = Some f ->
      readable f = true ->
      86400 <= now e - mtime f ->
      get_bgptools_lines e st
      = (Ok (Lines.readlines (content f)), requested st, [downloading]))
  /\ (cache st = None ->
      get_bgptools_lines e st
      = (Ok [], requested st,
         [downloading; PrintExn "Error fetching bgp.tools data: " err])).
Proof.
  intros Herr. destruct st as [c rq]. split.
  - intros f Hc Hr Hage. simpl in Hc. subst c.
    apply Z.ltb_ge in Hage.
    unfold_cache. simpl. unfold BGPT_CACHE_EXPIRATION. rewrite Hage. simpl.
    destruct (http e bgptools_url) as [|status body]; simpl.
    + rewrite Hr. reflexivity.
    + destruct ((400 <=? status) && (status <? 600)); [|discriminate Herr].
      simpl. rewrite Hr. reflexivity.
  - intros Hc. simpl in Hc. subst c.
    unfold_cache. simpl.
    destruct (http e bgptools_url) as [|status body]; simpl.
    + injection Herr as <-. reflexivity.
    + destruct ((400 <=? status) && (status <? 600)); [|discriminate Herr].
      injection Herr as <-. reflexivity.
Qed.

Lemma get_bgptools_lines_fallback_witness :
  get_bgptools_lines Examples.offline (Examples.with_cache Examples.day_old)
  = (Ok (Lines.readlines Examples.old_table),
     requested (Examples.with_cache Examples.day_old), [downloading])
  /\ get_bgptools_lines Examples.offline Examples.empty_store
     = (Ok [], requested Examples.empty_store,
        [downloading;
         PrintExn "Error fetching bgp.tools data: " ConnectionError]).
Proof.
  split.
  - apply (proj1 (get_bgptools_lines_fallback Examples.offline
                    (Examples.with_cache Examples.day_old) ConnectionError
                    eq_refl) Examples.day_old).
    + reflexivity.
    + reflexivity.
    + simpl. lia.
  - apply (proj2 (get_bgptools_lines_fallback Examples.offline
                    Examples.empty_store ConnectionError eq_refl)).
    reflexivity.
Defined.

(** With a cache file twenty-five hours old and no answer from the
    network, the old lines are returned and the output says nothing of
    the failure. *)
Lemma fallback_prints_no_failure :
  get_bgptools_lines Examples.offline (Examples.with_cache Examples.day_old)
  = (Ok ["old" +:+ Lines.nl],
     {| cache := Some Examples.day_old; requests := [bgptools_url] |},
     [downloading])
  /\ forall (s : string) (x : exn),
       PrintExn s x
       ∉ trace (get_bgptools_lines Examples.offline
                  (Examples.with_cache Examples.day_old)).
Proof.
  split; [reflexivity|].
  intros s x H. vm_compute in H.
  apply list_elem_of_In in H. destruct H as [H | []]. discriminate H.
Qed.

(** C10, as the code has it.  When the bulk table is downloaded and
    writing it to the cache file raises, the result is read back from the
    cache file as the failed write left it: the lines of that file if it
    exists and can be read, the empty list if there is no file.  The file
    left is the previous one when it was [open] that raised. *)
Theorem write_failure_rereads_cache
    (e : env) (st : store) (status : Z) (body : string) (err : exn) :
  must_refresh e st ->
  http e bgptools_url = Response status body ->
  (400 <=? status) && (status <? 600) = false ->
  value (Sys.write_cache e body (requested st)) = Raise err ->
  let left := cache (final (Sys.write_cache e body (requested st))) in
  (forall f : file,
      left = Some f -> readable f = true ->
      value (get_bgptools_lines e st) = Ok (Lines.readlines (content f)))
  /\ (left = None -> value (get_bgptools_lines e st) = Ok [])
  /\ (disk e = OpenFault -> left = cache st).
Proof.
  intros Hm Hh Hs Hw left.
  destruct (must_refresh_downloads e st Hm) as [-> _].
  subst left. destruct st as [c rq].
  unfold_cache. simpl in *. rewrite Hh. simpl. rewrite Hs. simpl.
  destruct (disk e) as [| |n]; simpl in *; [discriminate Hw | |].
  - repeat split.
    + intros f -> Hr. simpl. rewrite Hr. reflexivity.
    + intros ->. reflexivity.
  - repeat split.
    + intros f [= <-] Hr. simpl in *. rewrite Hr. reflexivity.
    + discriminate.
    + discriminate.
Qed.

Lemma write_failure_rereads_cache_witness :
  value (get_bgptools_lines (Examples.table_only Examples.new_table OpenFault)
           (Examples.with_cache Examples.day_old))
  = Ok (Lines.readlines Examples.old_table).
Proof.
  assert (Hm : must_refresh (Examples.table_only Examples.new_table OpenFault)
                 (Examples.with_cache Examples.day_old)).
  { left. simpl. lia. }
  apply (proj1 (write_failure_rereads_cache
                  (Examples.table_only Examples.new_table OpenFault)
                  (Examples.with_cache Examples.day_old)
                  200 Examples.new_table OSError Hm eq_refl eq_refl eq_refl)
           Examples.day_old); reflexivity.
Defined.

(** A write that raises after [open] has truncated the file leaves an
    empty file: the previous lines are lost and the result is empty.
    Where there was no file and three characters were written, these
    three characters are the result. *)
Lemma write_failure_loses_previous_lines :
  value (get_bgptools_lines
           (Examples.table_only Examples.new_table (WriteFault 0))
           (Examples.with_cache Examples.day_old))
  = Ok []
  /\ Lines.readlines (content Examples.day_old) = ["old" +:+ Lines.nl]
  /\ value (get_bgptools_lines
              (Examples.table_only Examples.new_table (WriteFault 3))
              Examples.empty_store)
     = Ok ["new"].
Proof. repeat split; reflexivity. Qed.

(** ** The adapters *)

(** A request that fails, or an answer with an error status, makes a
    lookup adapter report and return the empty list. *)
Lemma lookup_failure_reported (e : env) (url label : string) (st : store) :
  match http e url with
  | NoAnswer => True
  | Response status _ => (400 <=? status) && (status <? 600) = true
  end ->
  exists err,
    lookup e url label st
    = (Ok None,
       {| cache := cache st; requests := requests st ++ [url] |},
       [PrintExn label err]).
Proof.
  intros H. unfold lookup, try_catch, bind, ret, print, Sys.requests_get,
    Sys.raise_for_status, raise.
  destruct (http e url) as [|status body]; simpl.
  - now exists ConnectionError.
  - rewrite H. simpl. now exists HTTPError.
Qed.

Lemma fetch_prefixes_bgpview_no_answer (e : env) (asn : string) (st : store) :
  http e ("https://api.bgpview.io/asn/" +:+ asn +:+ "/prefixes") = NoAnswer ->
  value (fetch_prefixes_bgpview e asn st) = Ok [].
Proof.
  intros H. unfold fetch_prefixes_bgpview, bind.
  destruct (lookup_failure_reported e
              ("https://api.bgpview.io/asn/" +:+ asn +:+ "/prefixes")
              ("Error fetching data from BGPView for " +:+ asn +:+ ": ") st)
    as [err ->]; [now rewrite H | reflexivity].
Qed.

Lemma fetch_prefixes_ripe_no_answer (e : env) (asn : string) (st : store) :
  http e ("https://stat.ripe.net/data/announced-prefixes/data.json?resource="
          +:+ asn) = NoAnswer ->
  value (fetch_prefixes_ripe e asn st) = Ok [].
Proof.
  intros H. unfold fetch_prefixes_ripe, bind.
  destruct (lookup_failure_reported e
              ("https://stat.ripe.net/data/announced-prefixes/data.json?resource="
               +:+ asn)
              ("Error fetching data from RIPEstat for " +:+ asn +:+ ": ") st)
    as [err ->]; [now rewrite H | reflexivity].
Qed.

(** C1, where the code departs from it.  An answer 200 whose body is not
    JSON makes [fetch_prefixes_bgpview] and [fetch_prefixes_ripe] raise,
    and so does a body that is JSON of another shape (an array, an entry
    that is a number).  [fetch_prefixes_bgptools] raises when the download
    fails and the cache file exists but cannot be read. *)
Theorem adapters_can_raise (fl : float_ops) :
  value (fetch_prefixes_bgpview (Examples.answering "<html>") "AS62419"
           Examples.empty_store) = Raise JSONDecodeError
  /\ value (fetch_prefixes_ripe (Examples.answering "<html>") "AS62419"
              Examples.empty_store) = Raise JSONDecodeError
  /\ value (fetch_prefixes_bgpview (Examples.answering "[]") "AS62419"
              Examples.empty_store) = Raise AttributeError
  /\ value (fetch_prefixes_ripe (Examples.answering Examples.numeric_entries)
              "AS62419" Examples.empty_store) = Raise TypeError
  /\ value (fetch_prefixes_bgptools fl Examples.offline "AS62419"
              (Examples.with_cache Examples.day_old_unreadable))
     = Raise UnboundLocalError.
Proof. repeat split; reflexivity. Qed.

Lemma scan_lines_contributions
    (fl : float_ops) (n : Z) (lines : list string) (prefixes : list json) :
  scan_lines fl n lines prefixes = prefixes ++ omap (contribution fl n) lines.
Proof.
  revert prefixes.
  induction lines as [|line rest IH]; intros prefixes; simpl.
  - now rewrite app_nil_r.
  - unfold contribution at 1.
    destruct line as [|c line].
    + change (line_cidr fl n EmptyString) with (@Raise (option json) JSONDecodeError).
      apply IH.
    + destruct (line_cidr fl n (String c line)) as [[cidr|]|err]; rewrite IH.
      * now rewrite <- app_assoc.
      * reflexivity.
      * reflexivity.
Qed.

(** A line contributes a CIDR exactly when it decodes to an object whose
    [ASN] field equals the target and whose [CIDR] field is there and
    true. *)
Lemma contribution_spec (fl : float_ops) (n : Z) (line : string) (cidr : json) :
  contribution fl n line = Some cidr <->
  exists entry : list (string * json),
    Json.loads line = Some (JObj entry)
    /\ Py.eq_int fl (from_option (fun v => v) JNull (Json.dict_get "ASN" entry)) n
       = true
    /\ Json.dict_get "CIDR" entry = Some cidr
    /\ Py.truth fl cidr = true.
Proof.
  unfold contribution, line_cidr. split.
  - destruct (Json.loads line) as [entry|]; [|discriminate].
    destruct entry as [| | | | | |entry]; try discriminate.
    simpl.
    destruct (Py.eq_int fl _ n) eqn:Heq; [|discriminate].
    destruct (Json.dict_get "CIDR" entry) as [c|] eqn:Hc; simpl.
    + destruct (Py.truth fl c) eqn:Ht; [|discriminate].
      intros [= <-]. now exists entry.
    + discriminate.
  - intros (entry & -> & Heq & Hc & Ht). simpl.
    rewrite Heq, Hc. simpl. now rewrite Ht.
Qed.

Lemma contribution_unparseable (fl : float_ops) (n : Z) (line : string) :
  line = EmptyString \/ Json.loads line = None -> contribution fl n line = None.
Proof.
  unfold contribution, line_cidr. intros [-> | ->]; reflexivity.
Qed.

(** C7.  Given the lines of the bulk table and a target ASN that parses,
    [fetch_prefixes_bgptools] returns: a CIDR for each line that decodes
    to an object whose [ASN] equals the target and whose [CIDR] is present
    and non-empty, and nothing else; an empty or undecodable line changes
    nothing to the rest of the scan; and for ["AS62419"] and the lines
    [{bad json], [{"ASN":62419,"CIDR":"10.0.0.0/24"}] and the empty line,
    exactly [["10.0.0.0/24"]]. *)
Theorem fetch_prefixes_bgptools_scan
    (fl : float_ops) (e : env) (st : store) (asn : string) (n : Z)
    (lines : list string) :
  numeric_asn_of asn = Ok n ->
  value (get_bgptools_lines e st) = Ok lines ->
  exists found : list json,
    value (fetch_prefixes_bgptools fl e asn st) = Ok found
    /\ (forall cidr : json,
          cidr ∈ found <->
          exists (line : string) (entry : list (string * json)),
            line ∈ lines
            /\ Json.loads line = Some (JObj entry)
            /\ Py.eq_int fl
                 (from_option (fun v => v) JNull (Json.dict_get "ASN" entry)) n
               = true
            /\ Json.dict_get "CIDR" entry = Some cidr
            /\ Py.truth fl cidr = true)
    /\ (forall (before after : list string) (line : string),
          lines = before ++ line :: after ->
          line = EmptyString \/ Json.loads line = None ->
          found = scan_lines fl n (before ++ after) [])
    /\ (asn = "AS62419" ->
        lines = [Examples.bad_line; Examples.good_line; EmptyString] ->
        found = [JStr "10.0.0.0/24"]).
Proof.
  intros Hn Hlines.
  exists (scan_lines fl n lines []). split; [|split; [|split]].
  - unfold fetch_prefixes_bgptools, bind, try_catch, lift, ret, value in *.
    rewrite Hn.
    destruct (get_bgptools_lines e st) as [[r st'] o]. simpl in *.
    now rewrite Hlines.
  - intros cidr. rewrite scan_lines_contributions. simpl.
    rewrite list_elem_of_omap. split.
    + intros (line & Hin & Hc). apply contribution_spec in Hc.
      destruct Hc as (entry & Hc). now exists line, entry.
    + intros (line & entry & Hin & Hc). exists line. split; [exact Hin|].
      apply contribution_spec. now exists entry.
  - intros before after line -> Hbad.
    rewrite !scan_lines_contributions. simpl.
    rewrite !omap_app. simpl.
    now rewrite (contribution_unparseable fl n line Hbad).
  - intros -> ->. vm_compute in Hn. injection Hn as <-. reflexivity.
Qed.

Lemma fetch_prefixes_bgptools_scan_witness :
  exists found : list json,
    value (fetch_prefixes_bgptools Examples.no_floats
             (Examples.table_only Examples.small_table NoFault) "AS62419"
             Examples.empty_store) = Ok found
    /\ found = [JStr "10.0.0.0/24"].
Proof.
  destruct (fetch_prefixes_bgptools_scan Examples.no_floats
              (Examples.table_only Examples.small_table NoFault)
              Examples.empty_store "AS62419" 62419
              [Examples.bad_line; Examples.good_line; EmptyString]
              eq_refl eq_refl)
    as (found & Hv & _ & _ & Hex).
  exists found. split; [exact Hv|]. now apply Hex.
Defined.

(** ** The aggregator *)

Section MonadFacts.

Context {A B : Type}.

Lemma value_bind (m : M A) (k : A -> M B) (st : store) (a : A) :
  value (m st) = Ok a ->
  value (bind m k st) = value (k a (final (m st))).
Proof.
  unfold value, final, bind. destruct (m st) as [[r s] o]. simpl.
  intros ->. now destruct (k a s) as [[r' s'] o'].
Qed.

Lemma final_bind (m : M A) (k : A -> M B) (st : store) (a : A) :
  value (m st) = Ok a ->
  final (bind m k st) = final (k a (final (m st))).
Proof.
  unfold value, final, bind. destruct (m st) as [[r s] o]. simpl.
  intros ->. now destruct (k a s) as [[r' s'] o'].
Qed.

End MonadFacts.

Lemma value_print {B : Type} (o : output) (k : unit -> M B) (st : store) :
  value (bind (print o) k st) = value (k tt st).
Proof. apply (value_bind (print o) k st tt eq_refl). Qed.

Lemma final_print {B : Type} (o : output) (k : unit -> M B) (st : store) :
  final (bind (print o) k st) = final (k tt st).
Proof. apply (final_bind (print o) k st tt eq_refl). Qed.

Lemma add_prefixes_strings (l : list string) (X : gset string) (st : store) :
  value (add_prefixes (JStr <$> l) X st) = Ok (list_to_set l ∪ X)
  /\ final (add_prefixes (JStr <$> l) X st) = st.
Proof.
  revert X. induction l as [|p l IH]; intros X.
  - split; [|reflexivity]. simpl. unfold ret, value. simpl. f_equal.
    set_solver.
  - change (JStr <$> p :: l) with (JStr p :: (JStr <$> l)).
    cbn [add_prefixes].
    rewrite value_print, final_print.
    destruct (IH ({[p]} ∪ X)) as [-> ->]. split; [|reflexivity].
    f_equal. set_solver.
Qed.

Lemma merge_source_strings
    (found nothing : string) (l : list string) (X : gset string) (st : store) :
  value (merge_source found nothing (JStr <$> l) X st) = Ok (list_to_set l ∪ X)
  /\ final (merge_source found nothing (JStr <$> l) X st) = st.
Proof.
  destruct l as [|p l].
  - split; [|reflexivity]. simpl. unfold value. simpl. f_equal. set_solver.
  - change (JStr <$> p :: l) with (JStr p :: (JStr <$> l)).
    cbn [merge_source].
    rewrite value_print, final_print.
    apply (add_prefixes_strings (p :: l)).
Qed.

Lemma print_all_returns (l : list string) (st : store) :
  value (print_all l st) = Ok tt /\ final (print_all l st) = st.
Proof.
  induction l as [|p l IH]; [split; reflexivity|].
  cbn [print_all].
  rewrite value_print, final_print. exact IH.
Qed.

(** The value of [process_asn] when the adapters return strings. *)
Lemma process_asn_value
    (fl : float_ops) (e : env) (asn : string) (st : store)
    (a b c : list string) :
  sources_return fl e asn st a b c ->
  value (process_asn fl e asn st) = Ok (sorted (list_to_set (a ++ b ++ c))).
Proof.
  intros (Ha & Hb & Hc). unfold process_asn.
  rewrite value_print.
  rewrite (value_bind _ _ st _ Ha).
  set (s1 := final (fetch_prefixes_bgpview e asn st)) in *.
  destruct (merge_source_strings "BGPView results:" "No results from BGPView."
              a ∅ s1) as [Hv1 Hf1].
  rewrite (value_bind _ _ s1 _ Hv1), Hf1.
  rewrite value_print.
  rewrite (value_bind _ _ s1 _ Hb).
  set (s2 := final (fetch_prefixes_ripe e asn s1)) in *.
  destruct (merge_source_strings "RIPEstat results:" "No results from RIPEstat."
              b (list_to_set a ∪ ∅) s2) as [Hv2 Hf2].
  rewrite (value_bind _ _ s2 _ Hv2), Hf2.
  rewrite value_print.
  rewrite (value_bind _ _ s2 _ Hc).
  set (s3 := final (fetch_prefixes_bgptools fl e asn s2)) in *.
  destruct (merge_source_strings "bgp.tools results:" "No results from bgp.tools."
              c (list_to_set b ∪ (list_to_set a ∪ ∅)) s3) as [Hv3 Hf3].
  rewrite (value_bind _ _ s3 _ Hv3), Hf3.
  rewrite value_print.
  destruct (print_all_returns
              (sorted (list_to_set c ∪ (list_to_set b ∪ (list_to_set a ∪ ∅)))) s3)
    as [Hv4 Hf4].
  rewrite (value_bind _ _ s3 tt Hv4), Hf4.
  unfold ret, value. simpl. do 2 f_equal. set_solver.
Qed.

Lemma sorted_spec (X : gset string) :
  Sorted String.le (sorted X)
  /\ NoDup (sorted X)
  /\ forall p : string, p ∈ sorted X <-> p ∈ X.
Proof.
  unfold sorted. split; [|split].
  - apply Sorted_merge_sort. apply _.
  - rewrite merge_sort_Permutation. apply NoDup_elements.
  - intros p. rewrite merge_sort_Permutation. apply elem_of_elements.
Qed.

(** C3.  When the three adapters return the prefix strings [a], [b] and
    [c], [process_asn] returns the list that holds exactly the strings of
    [a], [b] and [c], each once, in ascending order of the strings; for
    [["10.0.0.0/24"]], [["10.0.0.0/24"; "10.0.1.0/24"]] and [[]] that list
    is [["10.0.0.0/24"; "10.0.1.0/24"]]. *)
Theorem process_asn_union_sorted
    (fl : float_ops) (e : env) (asn : string) (st : store)
    (a b c : list string) :
  sources_return fl e asn st a b c ->
  exists r : list string,
    value (process_asn fl e asn st) = Ok r
    /\ Sorted String.le r
    /\ NoDup r
    /\ (forall p : string, p ∈ r <-> p ∈ a \/ p ∈ b \/ p ∈ c)
    /\ (a = ["10.0.0.0/24"] -> b = ["10.0.0.0/24"; "10.0.1.0/24"] -> c = [] ->
        r = ["10.0.0.0/24"; "10.0.1.0/24"]).
Proof.
  intros H. exists (sorted (list_to_set (a ++ b ++ c))).
  destruct (sorted_spec (list_to_set (a ++ b ++ c))) as (Hs & Hn & Hm).
  split; [now apply process_asn_value|].
  split; [exact Hs|]. split; [exact Hn|]. split.
  - intros p. rewrite Hm, elem_of_list_to_set, !elem_of_app. reflexivity.
  - intros -> -> ->. vm_compute. reflexivity.
Qed.

Lemma process_asn_union_sorted_witness :
  exists r : list string,
    value (process_asn Examples.no_floats
             (Examples.serving [Examples.net_a]
                [Examples.net_a; Examples.net_b] EmptyString)
             "AS62419" Examples.empty_store) = Ok r
    /\ r = ["10.0.0.0/24"; "10.0.1.0/24"].
Proof.
  destruct (process_asn_union_sorted Examples.no_floats
              (Examples.serving [Examples.net_a]
                 [Examples.net_a; Examples.net_b] EmptyString)
              "AS62419" Examples.empty_store
              ["10.0.0.0/24"] ["10.0.0.0/24"; "10.0.1.0/24"] [])
    as (r & Hv & _ & _ & _ & Hex).
  - repeat split; reflexivity.
  - exists r. split; [exact Hv|]. now apply Hex.
Defined.

(** The result depends on the strings returned, not on which adapter
    returned them, in what order, or how many times. *)
Lemma process_asn_same_members
    (fl fl' : float_ops) (e e' : env) (asn asn' : string) (st st' : store)
    (a b c a' b' c' : list string) :
  sources_return fl e asn st a b c ->
  sources_return fl' e' asn' st' a' b' c' ->
  (forall p : string, p ∈ a' ++ b' ++ c' <-> p ∈ a ++ b ++ c) ->
  value (process_asn fl' e' asn' st') = value (process_asn fl e asn st).
Proof.
  intros H H' Hm.
  rewrite (process_asn_value _ _ _ _ _ _ _ H).
  rewrite (process_asn_value _ _ _ _ _ _ _ H').
  do 2 f_equal. apply set_eq. intros p.
  rewrite !elem_of_list_to_set. apply Hm.
Qed.

(** C4.  Take two runs of [process_asn] in which the adapters return
    [a], [b], [c] and [a'], [b'], [c'].  If the second triple is the first
    in another order, both runs return the same list (the merge is
    commutative).  If the second triple holds the result of the first run
    together with [a], [b] and [c] again, in any arrangement, the second
    run returns the result of the first (the merge is idempotent). *)
Theorem process_asn_merge_commutative_idempotent
    (fl fl' : float_ops) (e e' : env) (asn asn' : string) (st st' : store)
    (a b c a' b' c' : list string) :
  sources_return fl e asn st a b c ->
  sources_return fl' e' asn' st' a' b' c' ->
  exists r r' : list string,
    value (process_asn fl e asn st) = Ok r
    /\ value (process_asn fl' e' asn' st') = Ok r'
    /\ ([a'; b'; c'] ≡ₚ [a; b; c] -> r' = r)
    /\ ((forall p : string, p ∈ a' ++ b' ++ c' <-> p ∈ r ++ a ++ b ++ c) ->
        r' = r).
Proof.
  intros H H'.
  pose proof (process_asn_value _ _ _ _ _ _ _ H) as Hr.
  pose proof (process_asn_value _ _ _ _ _ _ _ H') as Hr'.
  exists (sorted (list_to_set (a ++ b ++ c))),
         (sorted (list_to_set (a' ++ b' ++ c'))).
  split; [exact Hr|]. split; [exact Hr'|].
  assert (Hsame : (forall p : string, p ∈ a' ++ b' ++ c' <-> p ∈ a ++ b ++ c) ->
                  sorted (list_to_set (a' ++ b' ++ c'))
                  = sorted (list_to_set (a ++ b ++ c))).
  { intros Hm.
    pose proof (process_asn_same_members _ _ _ _ _ _ _ _ _ _ _ _ _ _ H H' Hm)
      as Heq.
    rewrite Hr, Hr' in Heq. now injection Heq. }
  split.
  - intros Hp. apply Hsame. intros p.
    assert (Hc : concat [a'; b'; c'] ≡ₚ concat [a; b; c]) by now rewrite Hp.
    simpl in Hc. rewrite !app_nil_r in Hc. now rewrite Hc.
  - intros Hm. apply Hsame. intros p. rewrite Hm.
    rewrite (elem_of_app (sorted _)).
    destruct (sorted_spec (list_to_set (a ++ b ++ c))) as (_ & _ & Hin).
    rewrite Hin, elem_of_list_to_set. tauto.
Qed.

Lemma process_asn_merge_commutative_idempotent_witness :
  exists r r' : list string,
    value (process_asn Examples.no_floats
             (Examples.serving [Examples.net_a]
                [Examples.net_b; Examples.net_a] EmptyString)
             "AS62419" Examples.empty_store) = Ok r
    /\ value (process_asn Examples.no_floats
                (Examples.serving [Examples.net_b; Examples.net_a] []
                   Examples.small_table)
                "AS62419" Examples.empty_store) = Ok r'
    /\ r' = r.
Proof.
  destruct (process_asn_merge_commutative_idempotent
              Examples.no_floats Examples.no_floats
              (Examples.serving [Examples.net_a]
                 [Examples.net_b; Examples.net_a] EmptyString)
              (Examples.serving [Examples.net_b; Examples.net_a] []
                 Examples.small_table)
              "AS62419" "AS62419" Examples.empty_store Examples.empty_store
              [Examples.net_a] [Examples.net_b; Examples.net_a] []
              [Examples.net_b; Examples.net_a] [] [Examples.net_a])
    as (r & r' & Hr & Hr' & Hperm & _).
  - repeat split; reflexivity.
  - repeat split; reflexivity.
  - exists r, r'. split; [exact Hr|]. split; [exact Hr'|].
    apply Hperm.
    change ([[Examples.net_b; Examples.net_a]; []; [Examples.net_a]]
            ≡ₚ [[Examples.net_a]; [Examples.net_b; Examples.net_a]; []]).
    etrans; [apply perm_skip, perm_swap | apply perm_swap].
Defined.


(** * Further properties of the code *)

(** ** The normalizer and the number of the ASN *)

Lemma lstrip_blank (r : string) : blank r = true -> lstrip r = EmptyString.
Proof.
  induction r as [|c r IH]; simpl; [reflexivity|].
  intros [Hc Hr]%andb_prop. rewrite Hc. now apply IH.
Qed.

Lemma rstrip_blank (r : string) : blank r = true -> rstrip r = EmptyString.
Proof.
  induction r as [|c r IH]; simpl; [reflexivity|].
  intros [Hc Hr]%andb_prop. now rewrite IH, Hc.
Qed.

Lemma lstrip_app_blank (l t : string) :
  blank l = true -> lstrip (l +:+ t) = lstrip t.
Proof.
  induction l as [|c l IH]; [reflexivity|].
  simpl. intros [Hc Hl]%andb_prop.
  change (String c l +:+ t) with (String c (l +:+ t)).
  simpl. rewrite Hc. now apply IH.
Qed.

Lemma rstrip_app_blank (t r : string) :
  blank r = true -> rstrip (t +:+ r) = rstrip t.
Proof.
  intros Hr. induction t as [|c t IH].
  - now apply rstrip_blank.
  - change (String c t +:+ r) with (String c (t +:+ r)).
    simpl. now rewrite IH.
Qed.

Lemma strip_app_blank (s r : string) :
  blank r = true -> strip (s +:+ r) = strip s.
Proof.
  intros Hr. unfold strip. induction s as [|c s IH].
  - change (EmptyString +:+ r) with r. now rewrite lstrip_blank.
  - change (String c s +:+ r) with (String c (s +:+ r)). simpl.
    destruct (isspace c); [exact IH|].
    apply (rstrip_app_blank (String c s) r Hr).
Qed.

(** X1.  Letter case and white space around the input do not matter:
    two inputs with the same upper-case form, one of them between runs of
    white space, normalize to the same ASN. *)
Theorem normalize_asn_ignores_case_and_padding (l r s t : string) :
  blank l = true ->
  blank r = true ->
  upper s = upper t ->
  normalize_asn (l +:+ s +:+ r) = normalize_asn t.
Proof.
  intros Hl Hr Hu. unfold normalize_asn.
  assert (Hs : strip (l +:+ s +:+ r) = strip s).
  { unfold strip at 1. rewrite lstrip_app_blank by exact Hl.
    apply (strip_app_blank s r Hr). }
  now rewrite Hs, <- !strip_upper, Hu.
Qed.

Lemma normalize_asn_ignores_case_and_padding_witness :
  normalize_asn ("  " +:+ "as62419" +:+ " ") = normalize_asn "As62419".
Proof.
  apply (normalize_asn_ignores_case_and_padding "  " " " "as62419" "As62419");
    reflexivity.
Defined.








(** ** What the cache does to the store *)



(** X4.  The cache file is rewritten only by a download that got its
    answer: when the request fails, when [open] for writing raises, or
    when a fresh readable file is served, the file is left as it was.  At
    most one request is sent. *)
Theorem get_bgptools_lines_leaves_cache (e : env) (st : store) :
  (refresh_error e <> None \/ disk e = OpenFault \/ ~ must_refresh e st ->
   cache (final (get_bgptools_lines e st)) = cache st)
  /\ (requests (final (get_bgptools_lines e st)) = requests st
      \/ requests (final (get_bgptools_lines e st))
         = requests st ++ [bgptools_url]).
Proof.
  destruct st as [[f|] rq]; unfold must_refresh; unfold_cache; simpl.
  - destruct (now e - mtime f <? BGPT_CACHE_EXPIRATION) eqn:Hage; simpl;
      destruct (readable f) eqn:Hr; simpl;
      destruct (http e bgptools_url) as [|status body]; simpl;
      try destruct ((400 <=? status) && (status <? 600)); simpl;
      try destruct (disk e) as [| |n]; simpl; try rewrite Hr; simpl;
      (split; [|auto]); try reflexivity;
      intros [H | [H | H]]; try congruence;
      exfalso; apply H;
      ((left; apply Z.ltb_ge in Hage; exact Hage) || (right; reflexivity)).
  - destruct (http e bgptools_url) as [|status body]; simpl;
      try destruct ((400 <=? status) && (status <? 600)); simpl;
      try destruct (disk e) as [| |n]; simpl;
      (split; [|auto]); try reflexivity;
      intros [H | [H | H]]; try congruence; exfalso; now apply H.
Qed.

Lemma get_bgptools_lines_leaves_cache_witness :
  cache (final (get_bgptools_lines Examples.offline
                  (Examples.with_cache Examples.day_old)))
  = Some Examples.day_old.
Proof.
  apply (proj1 (get_bgptools_lines_leaves_cache Examples.offline
                  (Examples.with_cache Examples.day_old))).
  left. discriminate.
Defined.

Lemma refresh_result
    (e : env) (st : store) (status : Z) (body : string) :
  must_refresh e st ->
  http e bgptools_url = Response status body ->
  (400 <=? status) && (status <? 600) = false ->
  disk e = NoFault ->
  value (get_bgptools_lines e st) = Ok (Lines.splitlines body)
  /\ final (get_bgptools_lines e st)
     = {| cache := Some (Sys.rewritten e (cache st) body);
          requests := requests st ++ [bgptools_url] |}.
Proof.
  intros Hm Hh Hs Hd.
  destruct (must_refresh_downloads e st Hm) as [-> ->].
  destruct st as [c rq]. unfold_cache. simpl.
  rewrite Hh. simpl. rewrite Hs. simpl. rewrite Hd. simpl. now split.
Qed.

(** X5.  A refresh that succeeds returns the lines of the body, split as
    [str.splitlines] does, and leaves a cache file that holds the body and
    is dated [now]. *)
Theorem get_bgptools_lines_refresh
    (e : env) (st : store) (status : Z) (body : string) :
  must_refresh e st ->
  http e bgptools_url = Response status body ->
  (400 <=? status) && (status <? 600) = false ->
  disk e = NoFault ->
  value (get_bgptools_lines e st) = Ok (Lines.splitlines body)
  /\ final (get_bgptools_lines e st)
     = {| cache := Some (Sys.rewritten e (cache st) body);
          requests := requests st ++ [bgptools_url] |}.
Proof. apply refresh_result. Qed.

Lemma get_bgptools_lines_refresh_witness :
  value (get_bgptools_lines (Examples.table_only Examples.small_table NoFault)
           Examples.empty_store)
  = Ok [Examples.bad_line; Examples.good_line; EmptyString].
Proof.
  apply (proj1 (get_bgptools_lines_refresh
                  (Examples.table_only Examples.small_table NoFault)
                  Examples.empty_store 200 Examples.small_table
                  I eq_refl eq_refl eq_refl)).
Defined.

(** X6.  After a refresh that succeeded, a call made less than 86400
    seconds later is served from the file just written, provided the file
    can be read: it returns the lines of the body as [readlines] gives
    them, sends no request, prints nothing and changes nothing. *)
Theorem get_bgptools_lines_reuse
    (e e' : env) (st : store) (status : Z) (body : string) :
  must_refresh e st ->
  http e bgptools_url = Response status body ->
  (400 <=? status) && (status <? 600) = false ->
  disk e = NoFault ->
  from_option readable true (cache st) = true ->
  now e' - now e < 86400 ->
  get_bgptools_lines e' (final (get_bgptools_lines e st))
  = (Ok (Lines.readlines body), final (get_bgptools_lines e st), []).
Proof.
  intros Hm Hh Hs Hd Hr Hage.
  destruct (refresh_result e st status body Hm Hh Hs Hd) as [_ ->].
  apply (fresh_cache_served e' _ (Sys.rewritten e (cache st) body)).
  - reflexivity.
  - exact Hage.
  - exact Hr.
Qed.

Lemma get_bgptools_lines_reuse_witness :
  get_bgptools_lines Examples.offline
    (final (get_bgptools_lines
              (Examples.table_only Examples.new_table NoFault)
              Examples.empty_store))
  = (Ok ["new" +:+ Lines.nl],
     final (get_bgptools_lines
              (Examples.table_only Examples.new_table NoFault)
              Examples.empty_store), []).
Proof.
  apply (get_bgptools_lines_reuse
           (Examples.table_only Examples.new_table NoFault) Examples.offline
           Examples.empty_store 200 Examples.new_table
           I eq_refl eq_refl eq_refl eq_refl).
  simpl. lia.
Defined.

(** ** The bulk-table adapter *)


(** X7.  An ASN whose number does not parse makes the bulk-table adapter
    say so and return the empty list, without asking for the bulk table:
    the cache file is not read and no request is sent. *)
Theorem fetch_prefixes_bgptools_invalid_asn
    (fl : float_ops) (e : env) (asn : string) (st : store) :
  numeric_asn_of asn = Raise ValueError ->
  fetch_prefixes_bgptools fl e asn st
  = (Ok [], st, [Print ("Invalid ASN format: " +:+ asn)]).
Proof.
  intros H. unfold fetch_prefixes_bgptools, bind, try_catch, lift, ret, print.
  now rewrite H.
Qed.

Lemma fetch_prefixes_bgptools_invalid_asn_witness :
  fetch_prefixes_bgptools Examples.no_floats Examples.offline
    (normalize_asn "foo") Examples.empty_store
  = (Ok [], Examples.empty_store, [Print "Invalid ASN format: ASFOO"]).
Proof.
  apply (fetch_prefixes_bgptools_invalid_asn Examples.no_floats
           Examples.offline (normalize_asn "foo") Examples.empty_store).
  reflexivity.
Defined.



(** ** The two lookup adapters *)

Section StoreKept.

Context {A B : Type}.

Lemma bind_unfold (m : M A) (k : A -> M B) (st : store) :
  bind m k st
  = match m st with
    | (Ok a, st', o) =>
        (value (k a st'), final (k a st'), o ++ trace (k a st'))
    | (Raise err, st', o) => (Raise err, st', o)
    end.
Proof.
  unfold bind, value, final, trace.
  destruct (m st) as [[[a|err] st'] o]; [|reflexivity].
  now destruct (k a st') as [[r st''] o'].
Qed.

Lemma keeps_bind (m : M A) (k : A -> M B) :
  keeps_store m -> (forall a : A, keeps_store (k a)) -> keeps_store (bind m k).
Proof.
  intros Hm Hk st. rewrite bind_unfold. specialize (Hm st).
  destruct (m st) as [[[a|err] st'] o]; unfold final in *; simpl in *; subst.
  - apply Hk.
  - reflexivity.
Qed.

Lemma final_bind_kept (m : M A) (k : A -> M B) (st : store) :
  (forall a : A, keeps_store (k a)) -> final (bind m k st) = final (m st).
Proof.
  intros Hk. rewrite bind_unfold.
  destruct (m st) as [[[a|err] st'] o]; unfold final; simpl; [|reflexivity].
  apply Hk.
Qed.

Lemma value_bind_raise (m : M A) (k : A -> M B) (st : store) (err : exn) :
  value (m st) = Raise err ->
  value (bind m k st) = Raise err /\ final (bind m k st) = final (m st).
Proof.
  intros H. rewrite bind_unfold.
  destruct (m st) as [[[a|err'] st'] o]; unfold value, final in *; simpl in *.
  - discriminate H.
  - injection H as ->. split; reflexivity.
Qed.

Lemma trace_bind (m : M A) (k : A -> M B) (st : store) (a : A) :
  value (m st) = Ok a ->
  trace (bind m k st) = trace (m st) ++ trace (k a (final (m st))).
Proof.
  intros H. rewrite bind_unfold.
  destruct (m st) as [[[a'|err'] st'] o]; unfold value, final, trace in *;
    simpl in *; [|discriminate H].
  now injection H as ->.
Qed.

End StoreKept.

Lemma keeps_lift {A : Type} (r : result A) : keeps_store (lift r).
Proof. intros st. reflexivity. Qed.

Lemma keeps_ret {A : Type} (a : A) : keeps_store (ret a).
Proof. intros st. reflexivity. Qed.

Lemma keeps_print (o : output) : keeps_store (print o).
Proof. intros st. reflexivity. Qed.

Lemma keeps_collect_prefixes (entries prefixes : list json) :
  keeps_store (collect_prefixes entries prefixes).
Proof.
  revert prefixes. induction entries as [|entry rest IH]; intros prefixes.
  - apply keeps_ret.
  - cbn [collect_prefixes]. apply keeps_bind; [apply keeps_lift|].
    intros [|]; [|apply IH].
    apply keeps_bind; [apply keeps_lift|]. intros p. apply IH.
Qed.

Lemma keeps_collect_field (data : json) (field : string) (prefixes : list json) :
  keeps_store (collect_field data field prefixes).
Proof.
  unfold collect_field.
  repeat (apply keeps_bind; [apply keeps_lift|]; intros ?).
  apply keeps_collect_prefixes.
Qed.

Lemma keeps_response_json (response : Z * string) :
  keeps_store (Sys.response_json response).
Proof.
  intros st. unfold Sys.response_json.
  now destruct (Json.loads response.2).
Qed.

Lemma lookup_store (e : env) (url label : string) (st : store) :
  final (lookup e url label st) = asked url st.
Proof.
  unfold lookup, try_catch, bind, ret, print, raise, Sys.requests_get,
    Sys.raise_for_status, final, asked.
  destruct (http e url) as [|status body]; simpl; [reflexivity|].
  now destruct ((400 <=? status) && (status <? 600)).
Qed.

Lemma bgpview_store (e : env) (asn : string) (st : store) :
  final (fetch_prefixes_bgpview e asn st) = asked (bgpview_url asn) st.
Proof.
  unfold fetch_prefixes_bgpview. rewrite final_bind_kept.
  - apply lookup_store.
  - intros [response|]; [|apply keeps_ret].
    apply keeps_bind; [apply keeps_response_json|]. intros data.
    apply keeps_bind; [apply keeps_lift|]. intros status.
    destruct (negb (Py.eq_str status "ok")).
    + apply keeps_bind; [apply keeps_print|]. intros _. apply keeps_ret.
    + apply keeps_bind; [apply keeps_collect_field|]. intros prefixes.
      apply keeps_collect_field.
Qed.

Lemma ripe_store (e : env) (asn : string) (st : store) :
  final (fetch_prefixes_ripe e asn st) = asked (ripe_url asn) st.
Proof.
  unfold fetch_prefixes_ripe. rewrite final_bind_kept.
  - apply lookup_store.
  - intros [response|]; [|apply keeps_ret].
    apply keeps_bind; [apply keeps_response_json|]. intros data.
    apply keeps_bind; [apply keeps_lift|]. intros status.
    destruct (negb (Py.eq_str status "ok")).
    + apply keeps_bind; [apply keeps_print|]. intros _. apply keeps_ret.
    + apply keeps_collect_field.
Qed.

(** X9.  Each lookup adapter sends one request, to its own address, and
    leaves the cache file alone, whatever the answer is and even when the
    adapter raises. *)
Theorem lookup_adapters_store (e : env) (asn : string) (st : store) :
  final (fetch_prefixes_bgpview e asn st) = asked (bgpview_url asn) st
  /\ final (fetch_prefixes_ripe e asn st) = asked (ripe_url asn) st.
Proof. split; [apply bgpview_store | apply ripe_store]. Qed.

Lemma lookup_answer
    (e : env) (url label : string) (st : store) (status : Z) (body : string) :
  http e url = Response status body ->
  (400 <=? status) && (status <? 600) = false ->
  lookup e url label st = (Ok (Some (status, body)), asked url st, []).
Proof.
  intros Hh Hs. unfold lookup, try_catch, bind, ret, print, raise,
    Sys.requests_get, Sys.raise_for_status, asked.
  rewrite Hh. simpl. now rewrite Hs.
Qed.

(** X10.  [fetch_prefixes_bgpview] answers a failure with the empty list
    and one line of output: when no answer comes or the status of the
    answer is an error, the line names the exception; when the answer is a
    JSON object whose [status] is not ["ok"], the line shows the
    document. *)
Theorem fetch_prefixes_bgpview_degrades (e : env) (asn : string) (st : store) :
  (request_fails e (bgpview_url asn) ->
   exists err : exn,
     fetch_prefixes_bgpview e asn st
     = (Ok [], asked (bgpview_url asn) st,
        [PrintExn ("Error fetching data from BGPView for " +:+ asn +:+ ": ")
           err]))
  /\ (forall (status : Z) (body : string) (data v : json),
        http e (bgpview_url asn) = Response status body ->
        (400 <=? status) && (status <? 600) = false ->
        Json.loads body = Some data ->
        Py.get data "status" JNull = Ok v ->
        Py.eq_str v "ok" = false ->
        fetch_prefixes_bgpview e asn st
        = (Ok [], asked (bgpview_url asn) st,
           [PrintJson ("BGPView API error for " +:+ asn +:+ ": ") data])).
Proof.
  split.
  - intros Hf.
    destruct (lookup_failure_reported e (bgpview_url asn)
                ("Error fetching data from BGPView for " +:+ asn +:+ ": ")
                st Hf) as [err Hl].
    exists err. unfold fetch_prefixes_bgpview.
    fold (bgpview_url asn). rewrite bind_unfold, Hl. reflexivity.
  - intros status body data v Hh Hs Hl Hv Hok.
    unfold fetch_prefixes_bgpview. fold (bgpview_url asn).
    rewrite bind_unfold, (lookup_answer _ _ _ _ status body Hh Hs).
    unfold Sys.response_json, bind, lift, ret, print, value, final, trace.
    simpl. rewrite Hl, Hv, Hok. reflexivity.
Qed.

Lemma fetch_prefixes_bgpview_degrades_witness :
  exists err : exn,
    fetch_prefixes_bgpview Examples.offline "AS62419" Examples.empty_store
    = (Ok [], asked (bgpview_url "AS62419") Examples.empty_store,
       [PrintExn "Error fetching data from BGPView for AS62419: " err]).
Proof.
  apply (proj1 (fetch_prefixes_bgpview_degrades Examples.offline "AS62419"
                  Examples.empty_store)).
  exact I.
Defined.

(** X11.  [fetch_prefixes_ripe] answers a failure with the empty list and
    one line of output: when no answer comes or the status of the answer
    is an error, the line names the exception; when the answer is a JSON
    object whose [status] is not ["ok"], the line shows the document. *)
Theorem fetch_prefixes_ripe_degrades (e : env) (asn : string) (st : store) :
  (request_fails e (ripe_url asn) ->
   exists err : exn,
     fetch_prefixes_ripe e asn st
     = (Ok [], asked (ripe_url asn) st,
        [PrintExn ("Error fetching data from RIPEstat for " +:+ asn +:+ ": ")
           err]))
  /\ (forall (status : Z) (body : string) (data v : json),
        http e (ripe_url asn) = Response status body ->
        (400 <=? status) && (status <? 600) = false ->
        Json.loads body = Some data ->
        Py.get data "status" JNull = Ok v ->
        Py.eq_str v "ok" = false ->
        fetch_prefixes_ripe e asn st
        = (Ok [], asked (ripe_url asn) st,
           [PrintJson ("RIPEstat API error for " +:+ asn +:+ ": ") data])).
Proof.
  split.
  - intros Hf.
    destruct (lookup_failure_reported e (ripe_url asn)
                ("Error fetching data from RIPEstat for " +:+ asn +:+ ": ")
                st Hf) as [err Hl].
    exists err. unfold fetch_prefixes_ripe.
    fold (ripe_url asn). rewrite bind_unfold, Hl. reflexivity.
  - intros status body data v Hh Hs Hl Hv Hok.
    unfold fetch_prefixes_ripe. fold (ripe_url asn).
    rewrite bind_unfold, (lookup_answer _ _ _ _ status body Hh Hs).
    unfold Sys.response_json, bind, lift, ret, print, value, final, trace.
    simpl. rewrite Hl, Hv, Hok. reflexivity.
Qed.

Lemma fetch_prefixes_ripe_degrades_witness :
  fetch_prefixes_ripe (Examples.answering Runs.not_found) "AS62419"
    Examples.empty_store
  = (Ok [], asked (ripe_url "AS62419") Examples.empty_store,
     [PrintJson "RIPEstat API error for AS62419: "
        (JObj [("status", JStr "error")])]).
Proof.
  apply (proj2 (fetch_prefixes_ripe_degrades
                  (Examples.answering Runs.not_found) "AS62419"
                  Examples.empty_store)
           200 Runs.not_found (JObj [("status", JStr "error")])
           (JStr "error")); reflexivity.
Defined.

Lemma bind_ok {A B : Type} (m : M A) (k : A -> M B) (st st' : store)
    (a : A) (o : list output) :
  m st = (Ok a, st', o) ->
  bind m k st = (let '(r, st'', o') := k a st' in (r, st'', o ++ o')).
Proof. intros H. unfold bind. now rewrite H. Qed.

Lemma lift_ok {A : Type} (r : result A) (a : A) (st : store) :
  r = Ok a -> lift r st = (Ok a, st, []).
Proof. now intros ->. Qed.

Lemma response_json_ok (status : Z) (body : string) (data : json) (st : store) :
  Json.loads body = Some data ->
  Sys.response_json (status, body) st = (Ok data, st, []).
Proof. intros H. unfold Sys.response_json. cbn [snd]. now rewrite H. Qed.

Lemma collect_prefixes_objects
    (ms : list (list (string * json))) (prefixes : list json) (st : store) :
  collect_prefixes (JObj <$> ms) prefixes st
  = (Ok (prefixes ++ omap (Json.dict_get "prefix") ms), st, []).
Proof.
  revert prefixes. induction ms as [|m ms IH]; intros prefixes.
  - simpl. unfold ret. now rewrite app_nil_r.
  - change (JObj <$> m :: ms) with (JObj m :: (JObj <$> ms)).
    cbn [collect_prefixes omap list_omap]. rewrite bind_unfold.
    unfold lift at 1. cbn [Py.contains_str].
    destruct (Json.dict_get "prefix" m) as [p|] eqn:Hp.
    + cbn [bool_decide decide_rel is_Some_dec decide].
      unfold value, final, trace. simpl. unfold bind, lift. simpl.
      rewrite Hp. rewrite IH. simpl. now rewrite <- app_assoc.
    + unfold value, final, trace. simpl. now rewrite IH.
Qed.

Lemma collect_field_objects
    (data inner : json) (field : string) (ms : list (list (string * json)))
    (prefixes : list json) (st : store) :
  Py.get data "data" (JObj []) = Ok inner ->
  Py.get inner field (JArr []) = Ok (JArr (JObj <$> ms)) ->
  collect_field data field prefixes st
  = (Ok (prefixes ++ omap (Json.dict_get "prefix") ms), st, []).
Proof.
  intros Hd Hf. unfold collect_field, bind, lift. rewrite Hd, Hf. simpl.
  now rewrite collect_prefixes_objects.
Qed.

(** X12.  On an answer whose [status] is ["ok"] and whose two lists hold
    objects, [fetch_prefixes_bgpview] returns the [prefix] fields of the
    IPv4 entries followed by those of the IPv6 entries, in the order of
    the document; an entry without a [prefix] field is passed over, and a
    list that is missing counts as empty. *)
Theorem fetch_prefixes_bgpview_extracts
    (e : env) (asn : string) (st : store) (status : Z) (body : string)
    (data inner : json) (v4 v6 : list (list (string * json))) :
  http e (bgpview_url asn) = Response status body ->
  (400 <=? status) && (status <? 600) = false ->
  Json.loads body = Some data ->
  Py.get data "status" JNull = Ok (JStr "ok") ->
  Py.get data "data" (JObj []) = Ok inner ->
  Py.get inner "ipv4_prefixes" (JArr []) = Ok (JArr (JObj <$> v4)) ->
  Py.get inner "ipv6_prefixes" (JArr []) = Ok (JArr (JObj <$> v6)) ->
  fetch_prefixes_bgpview e asn st
  = (Ok (omap (Json.dict_get "prefix") v4 ++ omap (Json.dict_get "prefix") v6),
     asked (bgpview_url asn) st, []).
Proof.
  intros Hh Hs Hl Hok Hd H4 H6.
  set (found := omap (Json.dict_get "prefix") v4
                ++ omap (Json.dict_get "prefix") v6).
  assert (HA : forall s : store,
             (do prefixes <- collect_field data "ipv4_prefixes" [];
              collect_field data "ipv6_prefixes" prefixes) s
             = (Ok found, s, [])).
  { intros s. rewrite bind_unfold.
    rewrite (collect_field_objects data inner "ipv4_prefixes" v4 [] s Hd H4).
    cbn [app].
    now rewrite (collect_field_objects data inner "ipv6_prefixes" v6 _ s Hd H6). }
  unfold fetch_prefixes_bgpview. fold (bgpview_url asn).
  rewrite (bind_ok _ _ _ _ _ _ (lookup_answer _ _ _ _ status body Hh Hs)).
  rewrite (bind_ok _ _ _ _ _ _ (response_json_ok status body data _ Hl)).
  rewrite (bind_ok _ _ _ _ _ _ (lift_ok _ _ _ Hok)).
  change (negb (Py.eq_str (JStr "ok") "ok")) with false. cbv iota.
  now rewrite HA.
Qed.

Lemma fetch_prefixes_bgpview_extracts_witness :
  fetch_prefixes_bgpview
    (Examples.serving [Examples.net_b; Examples.net_a] [] EmptyString)
    "AS62419" Examples.empty_store
  = (Ok [JStr "10.0.1.0/24"; JStr "10.0.0.0/24"],
     asked (bgpview_url "AS62419") Examples.empty_store, []).
Proof.
  apply (fetch_prefixes_bgpview_extracts
           (Examples.serving [Examples.net_b; Examples.net_a] [] EmptyString)
           "AS62419" Examples.empty_store 200
           (Examples.bgpview_body [Examples.net_b; Examples.net_a])
           (JObj [("status", JStr "ok");
                  ("data",
                   JObj [("ipv4_prefixes",
                          JArr [JObj [("prefix", JStr "10.0.1.0/24")];
                                JObj [("prefix", JStr "10.0.0.0/24")]]);
                         ("ipv6_prefixes", JArr [])])])
           (JObj [("ipv4_prefixes",
                   JArr [JObj [("prefix", JStr "10.0.1.0/24")];
                         JObj [("prefix", JStr "10.0.0.0/24")]]);
                  ("ipv6_prefixes", JArr [])])
           [[("prefix", JStr "10.0.1.0/24")]; [("prefix", JStr "10.0.0.0/24")]]
           []); reflexivity.
Defined.

(** X13.  On an answer whose [status] is ["ok"] and whose list holds
    objects, [fetch_prefixes_ripe] returns the [prefix] fields of the
    entries of [data.prefixes], in the order of the document; an entry
    without a [prefix] field is passed over, and a missing list counts as
    empty. *)
Theorem fetch_prefixes_ripe_extracts
    (e : env) (asn : string) (st : store) (status : Z) (body : string)
    (data inner : json) (entries : list (list (string * json))) :
  http e (ripe_url asn) = Response status body ->
  (400 <=? status) && (status <? 600) = false ->
  Json.loads body = Some data ->
  Py.get data "status" JNull = Ok (JStr "ok") ->
  Py.get data "data" (JObj []) = Ok inner ->
  Py.get inner "prefixes" (JArr []) = Ok (JArr (JObj <$> entries)) ->
  fetch_prefixes_ripe e asn st
  = (Ok (omap (Json.dict_get "prefix") entries), asked (ripe_url asn) st, []).
Proof.
  intros Hh Hs Hl Hok Hd Hp.
  unfold fetch_prefixes_ripe. fold (ripe_url asn).
  rewrite (bind_ok _ _ _ _ _ _ (lookup_answer _ _ _ _ status body Hh Hs)).
  rewrite (bind_ok _ _ _ _ _ _ (response_json_ok status body data _ Hl)).
  rewrite (bind_ok _ _ _ _ _ _ (lift_ok _ _ _ Hok)).
  change (negb (Py.eq_str (JStr "ok") "ok")) with false. cbv iota.
  now rewrite (collect_field_objects data inner "prefixes" entries [] _ Hd Hp).
Qed.

Lemma fetch_prefixes_ripe_extracts_witness :
  fetch_prefixes_ripe
    (Examples.serving [] [Examples.net_a; Examples.net_b] EmptyString)
    "AS62419" Examples.empty_store
  = (Ok [JStr "10.0.0.0/24"; JStr "10.0.1.0/24"],
     asked (ripe_url "AS62419") Examples.empty_store, []).
Proof.
  apply (fetch_prefixes_ripe_extracts
           (Examples.serving [] [Examples.net_a; Examples.net_b] EmptyString)
           "AS62419" Examples.empty_store 200
           (Examples.ripe_body [Examples.net_a; Examples.net_b])
           (JObj [("status", JStr "ok");
                  ("data",
                   JObj [("prefixes",
                          JArr [JObj [("prefix", JStr "10.0.0.0/24")];
                                JObj [("prefix", JStr "10.0.1.0/24")]])])])
           (JObj [("prefixes",
                   JArr [JObj [("prefix", JStr "10.0.0.0/24")];
                         JObj [("prefix", JStr "10.0.1.0/24")]])])
           [[("prefix", JStr "10.0.0.0/24")]; [("prefix", JStr "10.0.1.0/24")]]);
    reflexivity.
Defined.

(** ** The aggregator, when an adapter fails *)

Lemma add_prefixes_not_text (l : list json) (X : gset string) (st : store) :
  forallb is_text l = false ->
  value (add_prefixes l X st) = Raise TypeError
  /\ final (add_prefixes l X st) = st.
Proof.
  revert X. induction l as [|x l IH]; intros X H; [discriminate H|].
  simpl in H. destruct x; cbn [add_prefixes]; try (split; reflexivity).
  simpl in H. rewrite value_print, final_print. now apply IH.
Qed.

Lemma merge_source_not_text
    (found nothing : string) (l : list json) (X : gset string) (st : store) :
  forallb is_text l = false ->
  value (merge_source found nothing l X st) = Raise TypeError
  /\ final (merge_source found nothing l X st) = st.
Proof.
  intros H. destruct l as [|x l]; [discriminate H|].
  cbn [merge_source]. rewrite value_print, final_print.
  now apply add_prefixes_not_text.
Qed.

(** X14.  [process_asn] has no handler of its own: the exception of an
    adapter is the exception of [process_asn], and the adapters after it
    are not called.  If BGPView raises, one request has been sent; if
    RIPEstat raises after BGPView returned strings, two. *)
Theorem process_asn_propagates
    (fl : float_ops) (e : env) (asn : string) (st : store) (err : exn) :
  (value (fetch_prefixes_bgpview e asn st) = Raise err ->
   value (process_asn fl e asn st) = Raise err
   /\ final (process_asn fl e asn st) = asked (bgpview_url asn) st)
  /\ (forall a : list string,
        value (fetch_prefixes_bgpview e asn st) = Ok (JStr <$> a) ->
        value (fetch_prefixes_ripe e asn (asked (bgpview_url asn) st))
        = Raise err ->
        value (process_asn fl e asn st) = Raise err
        /\ final (process_asn fl e asn st)
           = asked (ripe_url asn) (asked (bgpview_url asn) st)).
Proof.
  split.
  - intros Ha. unfold process_asn.
    rewrite value_print, final_print.
    match goal with
    | |- context [bind (fetch_prefixes_bgpview e asn) ?k st] =>
        destruct (value_bind_raise (fetch_prefixes_bgpview e asn) k st err Ha)
          as [Hv Hf]
    end.
    rewrite Hv, Hf. split; [reflexivity | apply bgpview_store].
  - intros a Ha Hb. unfold process_asn.
    rewrite value_print, final_print.
    rewrite (value_bind _ _ st _ Ha), (final_bind _ _ st _ Ha).
    rewrite bgpview_store in *.
    set (s1 := asked (bgpview_url asn) st) in *.
    destruct (merge_source_strings "BGPView results:" "No results from BGPView."
                a ∅ s1) as [Hv1 Hf1].
    rewrite (value_bind _ _ s1 _ Hv1), (final_bind _ _ s1 _ Hv1), Hf1.
    rewrite value_print, final_print.
    match goal with
    | |- context [bind (fetch_prefixes_ripe e asn) ?k s1] =>
        destruct (value_bind_raise (fetch_prefixes_ripe e asn) k s1 err Hb)
          as [Hv Hf]
    end.
    rewrite Hv, Hf. split; [reflexivity | apply ripe_store].
Qed.

Lemma process_asn_propagates_witness :
  value (process_asn Examples.no_floats (Examples.answering "<html>")
           "AS62419" Examples.empty_store) = Raise JSONDecodeError
  /\ final (process_asn Examples.no_floats (Examples.answering "<html>")
              "AS62419" Examples.empty_store)
     = asked (bgpview_url "AS62419") Examples.empty_store.
Proof.
  apply (proj1 (process_asn_propagates Examples.no_floats
                  (Examples.answering "<html>") "AS62419"
                  Examples.empty_store JSONDecodeError)).
  reflexivity.
Defined.

(** X15.  A prefix that is not a string makes [process_asn] raise
    [TypeError] when it prints it; a [CIDR] field of the bulk table that
    holds a number is enough.  Here the two lookup adapters return strings
    and the bulk-table adapter returns a list with such a prefix. *)
Theorem process_asn_rejects_non_text
    (fl : float_ops) (e : env) (asn : string) (st : store)
    (a b : list string) (c : list json) :
  value (fetch_prefixes_bgpview e asn st) = Ok (JStr <$> a) ->
  value (fetch_prefixes_ripe e asn (asked (bgpview_url asn) st))
  = Ok (JStr <$> b) ->
  value (fetch_prefixes_bgptools fl e asn
           (asked (ripe_url asn) (asked (bgpview_url asn) st))) = Ok c ->
  forallb is_text c = false ->
  value (process_asn fl e asn st) = Raise TypeError.
Proof.
  intros Ha Hb Hc Hbad. unfold process_asn.
  rewrite value_print.
  rewrite (value_bind _ _ st _ Ha). rewrite bgpview_store.
  set (s1 := asked (bgpview_url asn) st) in *.
  destruct (merge_source_strings "BGPView results:" "No results from BGPView."
              a ∅ s1) as [Hv1 Hf1].
  rewrite (value_bind _ _ s1 _ Hv1), Hf1.
  rewrite value_print.
  rewrite (value_bind _ _ s1 _ Hb). rewrite ripe_store.
  set (s2 := asked (ripe_url asn) s1) in *.
  destruct (merge_source_strings "RIPEstat results:" "No results from RIPEstat."
              b (list_to_set a ∪ ∅) s2) as [Hv2 Hf2].
  rewrite (value_bind _ _ s2 _ Hv2), Hf2.
  rewrite value_print.
  rewrite (value_bind _ _ s2 _ Hc).
  set (s3 := final (fetch_prefixes_bgptools fl e asn s2)).
  destruct (merge_source_not_text "bgp.tools results:"
              "No results from bgp.tools." c
              (list_to_set b ∪ (list_to_set a ∪ ∅)) s3 Hbad) as [Hv3 _].
  match goal with
  | |- context [bind ?m ?k s3] =>
      destruct (value_bind_raise m k s3 TypeError Hv3) as [Hv _]
  end.
  exact Hv.
Qed.

Lemma process_asn_rejects_non_text_witness :
  value (process_asn Examples.no_floats
           (Examples.serving [] [] Runs.numeric_cidr) "AS62419"
           Examples.empty_store) = Raise TypeError.
Proof.
  apply (process_asn_rejects_non_text Examples.no_floats
           (Examples.serving [] [] Runs.numeric_cidr) "AS62419"
           Examples.empty_store [] [] [JInt 5]); reflexivity.
Defined.

(** ** What the aggregator prints and leaves *)

Lemma print_run (o : output) (st : store) : print o st = (Ok tt, st, [o]).
Proof. reflexivity. Qed.

Lemma print_all_run (l : list string) (st : store) :
  print_all l st = (Ok tt, st, map (fun p => Print ("  " +:+ p)) l).
Proof.
  induction l as [|p l IH]; [reflexivity|].
  cbn [print_all map]. rewrite (bind_ok _ _ _ _ _ _ (print_run _ st)).
  now rewrite IH.
Qed.

Lemma merge_source_run
    (found nothing : string) (l : list string) (X : gset string) (st : store) :
  exists o : list output,
    merge_source found nothing (JStr <$> l) X st
    = (Ok (list_to_set l ∪ X), st, o).
Proof.
  destruct (merge_source_strings found nothing l X st) as [Hv Hf].
  destruct (merge_source found nothing (JStr <$> l) X st) as [[r s] o].
  unfold value, final in *. simpl in *. subst. now exists o.
Qed.

Lemma run_of_value {A : Type} (m : M A) (st : store) (a : A) :
  value (m st) = Ok a -> m st = (Ok a, final (m st), trace (m st)).
Proof.
  destruct (m st) as [[r s] o]. unfold value, final, trace. simpl.
  now intros ->.
Qed.

Lemma ends_with_app (t x L : list output) :
  (exists o, L = o ++ t) -> exists o, x ++ L = o ++ t.
Proof. intros [o ->]. exists (x ++ o). now rewrite app_assoc. Qed.

(** X16.  When the adapters return strings, [process_asn] itself changes
    nothing in the store, which is left as the bulk-table adapter left it,
    and the output ends with the heading of the combined ranges followed
    by the returned prefixes, one per line, in the order returned. *)
Theorem process_asn_report
    (fl : float_ops) (e : env) (asn : string) (st : store)
    (a b c : list string) :
  sources_return fl e asn st a b c ->
  exists (r : list string) (o : list output),
    process_asn fl e asn st
    = (Ok r,
       final (fetch_prefixes_bgptools fl e asn
                (asked (ripe_url asn) (asked (bgpview_url asn) st))),
       o ++ listing asn r).
Proof.
  unfold sources_return. rewrite bgpview_store, ripe_store.
  intros (Ha & Hb & Hc).
  apply run_of_value in Ha, Hb, Hc.
  rewrite bgpview_store in Ha. rewrite ripe_store in Hb.
  set (s1 := asked (bgpview_url asn) st) in *.
  set (s2 := asked (ripe_url asn) s1) in *.
  set (s3 := final (fetch_prefixes_bgptools fl e asn s2)) in *.
  destruct (merge_source_run "BGPView results:" "No results from BGPView."
              a ∅ s1) as [o1 H1].
  destruct (merge_source_run "RIPEstat results:" "No results from RIPEstat."
              b (list_to_set a ∪ ∅) s2) as [o2 H2].
  destruct (merge_source_run "bgp.tools results:" "No results from bgp.tools."
              c (list_to_set b ∪ (list_to_set a ∪ ∅)) s3) as [o3 H3].
  set (r := sorted (list_to_set c ∪ (list_to_set b ∪ (list_to_set a ∪ ∅)))).
  exists r. unfold process_asn.
  rewrite (bind_ok _ _ _ _ _ _ (print_run _ st)).
  rewrite (bind_ok _ _ _ _ _ _ Ha).
  rewrite (bind_ok _ _ _ _ _ _ H1).
  rewrite (bind_ok _ _ _ _ _ _ (print_run _ s1)).
  rewrite (bind_ok _ _ _ _ _ _ Hb).
  rewrite (bind_ok _ _ _ _ _ _ H2).
  rewrite (bind_ok _ _ _ _ _ _ (print_run _ s2)).
  rewrite (bind_ok _ _ _ _ _ _ Hc).
  rewrite (bind_ok _ _ _ _ _ _ H3).
  rewrite (bind_ok _ _ _ _ _ _ (print_run _ s3)).
  rewrite (bind_ok _ _ _ _ _ _ (print_all_run _ s3)).
  unfold ret. cbv beta iota zeta. fold r.
  match goal with
  | |- exists o, (_, _, ?L) = _ =>
      assert (Hend : exists o, L = o ++ listing asn r)
  end.
  { do 9 apply ends_with_app. exists []. unfold listing.
    cbn [app]. now rewrite app_nil_r. }
  destruct Hend as [o ->]. now exists o.
Qed.

Lemma process_asn_report_witness :
  exists (r : list string) (o : list output),
    process_asn Examples.no_floats
      (Examples.serving [Examples.net_a] [Examples.net_a; Examples.net_b]
         EmptyString)
      "AS62419" Examples.empty_store
    = (Ok r,
       final (fetch_prefixes_bgptools Examples.no_floats
                (Examples.serving [Examples.net_a]
                   [Examples.net_a; Examples.net_b] EmptyString)
                "AS62419"
                (asked (ripe_url "AS62419")
                   (asked (bgpview_url "AS62419") Examples.empty_store))),
       o ++ listing "AS62419" r).
Proof.
  apply (process_asn_report Examples.no_floats
           (Examples.serving [Examples.net_a] [Examples.net_a; Examples.net_b]
              EmptyString)
           "AS62419" Examples.empty_store
           ["10.0.0.0/24"] ["10.0.0.0/24"; "10.0.1.0/24"] []).
  repeat split; reflexivity.
Defined.

(** ** The command line *)

Lemma handle_asn_raises
    (fl : float_ops) (h : host) (dest input : string) (ss : session)
    (err : exn) :
  value (process_asn fl (sys h) (normalize_asn input) (base ss)) = Raise err ->
  outcome_of (handle_asn fl h dest input ss) = Raise err
  /\ outputs (session_of (handle_asn fl h dest input ss)) = outputs ss
  /\ folders (session_of (handle_asn fl h dest input ss)) = folders ss.
Proof.
  unfold handle_asn, value, outcome_of, session_of.
  destruct (process_asn fl (sys h) (normalize_asn input) (base ss))
    as [[[r|err'] st'] o]; simpl; [discriminate|].
  intros [= ->]. repeat split.
Qed.

Lemma handle_asn_returns
    (fl : float_ops) (h : host) (dest input : string) (ss : session)
    (r : list string) :
  value (process_asn fl (sys h) (normalize_asn input) (base ss)) = Ok r ->
  outcome_of (handle_asn fl h dest input ss) = Ok tt
  /\ base (session_of (handle_asn fl h dest input ss))
     = final (process_asn fl (sys h) (normalize_asn input) (base ss))
  /\ folders (session_of (handle_asn fl h dest input ss)) = folders ss
  /\ outputs (session_of (handle_asn fl h dest input ss))
     = (write_output h (output_path dest input) r (outputs ss)).2.
Proof.
  unfold handle_asn, value, final, outcome_of, session_of, output_path.
  destruct (process_asn fl (sys h) (normalize_asn input) (base ss))
    as [[[r'|err'] st'] o]; simpl; [|discriminate].
  intros [= ->].
  destruct (write_output h _ r (outputs ss)) as [[[]|err] files]; simpl;
    repeat split.
Qed.

(** X17.  For an ASN whose prefixes [process_asn] returns, and an output
    file that can be written, the loop of [main] goes on, and the file
    named after the normalized ASN in the destination folder holds the
    prefixes in the order returned, each followed by a line feed; no other
    output file is touched. *)
Theorem handle_asn_writes
    (fl : float_ops) (h : host) (dest input : string) (ss : session)
    (r : list string) :
  value (process_asn fl (sys h) (normalize_asn input) (base ss)) = Ok r ->
  out_fault h (output_path dest input) = NoFault ->
  outcome_of (handle_asn fl h dest input ss) = Ok tt
  /\ outputs (session_of (handle_asn fl h dest input ss))
       !! output_path dest input = Some (output_text r)
  /\ (forall path : string,
        path <> output_path dest input ->
        outputs (session_of (handle_asn fl h dest input ss)) !! path
        = outputs ss !! path).
Proof.
  intros Hr Hf.
  destruct (handle_asn_returns fl h dest input ss r Hr) as (Ho & _ & _ & Hw).
  rewrite Hw. unfold write_output. rewrite Hf. cbn [snd].
  split; [exact Ho|]. split.
  - apply lookup_insert_eq.
  - intros path Hp. now apply lookup_insert_ne.
Qed.

Lemma handle_asn_writes_witness :
  outputs (session_of (handle_asn Examples.no_floats
                         (Runs.writing
                            (Examples.serving [Examples.net_b]
                               [Examples.net_a; Examples.net_b] EmptyString))
                         "out" " as62419" Runs.fresh_session))
    !! "out/AS62419.txt"
  = Some ("10.0.0.0/24" +:+ Lines.nl +:+ "10.0.1.0/24" +:+ Lines.nl).
Proof.
  apply (proj1 (proj2 (handle_asn_writes Examples.no_floats
                         (Runs.writing
                            (Examples.serving [Examples.net_b]
                               [Examples.net_a; Examples.net_b] EmptyString))
                         "out" " as62419" Runs.fresh_session
                         ["10.0.0.0/24"; "10.0.1.0/24"] eq_refl eq_refl))).
Defined.

(** X18.  An output file that cannot be written does not stop the loop
    of [main]: the error is printed last and the next ASN is processed.
    When it was [open] that raised, the output files are as they were. *)
Theorem handle_asn_write_fault
    (fl : float_ops) (h : host) (dest input : string) (ss : session)
    (r : list string) :
  value (process_asn fl (sys h) (normalize_asn input) (base ss)) = Ok r ->
  out_fault h (output_path dest input) <> NoFault ->
  outcome_of (handle_asn fl h dest input ss) = Ok tt
  /\ (exists o : list output,
        printed (handle_asn fl h dest input ss)
        = o ++ [PrintExn ("Error writing " +:+ normalize_asn input
                          +:+ " to file: ") OSError])
  /\ (out_fault h (output_path dest input) = OpenFault ->
      outputs (session_of (handle_asn fl h dest input ss)) = outputs ss).
Proof.
  intros Hr Hf.
  destruct (handle_asn_returns fl h dest input ss r Hr) as (Ho & _ & _ & Hw).
  split; [exact Ho|]. split.
  - unfold handle_asn, printed, value, output_path in *.
    destruct (process_asn fl (sys h) (normalize_asn input) (base ss))
      as [[[r'|err'] st'] o]; simpl in *; [|discriminate Hr].
    unfold write_output.
    destruct (out_fault h _) as [| |n]; [congruence | |]; simpl;
      now exists (Print (Lines.nl +:+ "Processing " +:+ normalize_asn input
                         +:+ "...") :: o).
  - intros Hopen. rewrite Hw. unfold write_output. now rewrite Hopen.
Qed.

Lemma handle_asn_write_fault_witness :
  outcome_of (handle_asn Examples.no_floats (Runs.read_only Examples.offline)
                "out" "62419" Runs.fresh_session) = Ok tt
  /\ outputs (session_of (handle_asn Examples.no_floats
                            (Runs.read_only Examples.offline)
                            "out" "62419" Runs.fresh_session)) = ∅.
Proof.
  destruct (handle_asn_write_fault Examples.no_floats
              (Runs.read_only Examples.offline) "out" "62419"
              Runs.fresh_session [] eq_refl)
    as (Ho & _ & Hopen).
  - discriminate.
  - split; [exact Ho|]. now apply Hopen.
Defined.

Lemma main_loop_cons
    (fl : float_ops) (hosts : nat -> host) (dest : string) (i : nat)
    (input : string) (rest : list string) (ss : session) :
  (forall err : exn,
      outcome_of (handle_asn fl (hosts i) dest input ss) = Raise err ->
      outcome_of (main_loop fl hosts dest i (input :: rest) ss) = Uncaught err
      /\ session_of (main_loop fl hosts dest i (input :: rest) ss)
         = session_of (handle_asn fl (hosts i) dest input ss))
  /\ (outcome_of (handle_asn fl (hosts i) dest input ss) = Ok tt ->
      outcome_of (main_loop fl hosts dest i (input :: rest) ss)
      = outcome_of (main_loop fl hosts dest (S i) rest
                      (session_of (handle_asn fl (hosts i) dest input ss)))
      /\ session_of (main_loop fl hosts dest i (input :: rest) ss)
         = session_of (main_loop fl hosts dest (S i) rest
                         (session_of (handle_asn fl (hosts i) dest input ss)))).
Proof.
  cbn [main_loop]. unfold outcome_of, session_of.
  destruct (handle_asn fl (hosts i) dest input ss) as [[[u|err'] ss'] o];
    simpl.
  - split; [discriminate|]. intros _.
    now destruct (main_loop fl hosts dest (S i) rest ss') as [[r' ss''] o'].
  - split; [|discriminate]. now intros err [= ->].
Qed.

Lemma handle_asn_outcome
    (fl : float_ops) (h : host) (dest input : string) (ss : session) :
  match value (process_asn fl (sys h) (normalize_asn input) (base ss)) with
  | Ok _ => outcome_of (handle_asn fl h dest input ss) = Ok tt
  | Raise err => outcome_of (handle_asn fl h dest input ss) = Raise err
  end.
Proof.
  destruct (value (process_asn fl (sys h) (normalize_asn input) (base ss)))
    as [r|err] eqn:Hv.
  - now destruct (handle_asn_returns fl h dest input ss r Hv).
  - now destruct (handle_asn_raises fl h dest input ss err Hv).
Qed.

(** X19.  The loop of [main] ends early for one reason only: when it
    ends with an exception, that exception was raised by [process_asn] for
    one of the ASNs, all the ASNs before that one were handled to the end,
    and the output files are those written for them. *)
Theorem main_loop_uncaught
    (fl : float_ops) (hosts : nat -> host) (dest : string) (asns : list string)
    (i : nat) (ss : session) (err : exn) :
  outcome_of (main_loop fl hosts dest i asns ss) = Uncaught err ->
  exists (k : nat) (input : string),
    asns !! k = Some input
    /\ outcome_of (main_loop fl hosts dest i (take k asns) ss) = Completed
    /\ value (process_asn fl (sys (hosts (i + k)%nat)) (normalize_asn input)
                (base (session_of
                         (main_loop fl hosts dest i (take k asns) ss))))
       = Raise err
    /\ outputs (session_of (main_loop fl hosts dest i asns ss))
       = outputs (session_of (main_loop fl hosts dest i (take k asns) ss)).
Proof.
  revert i ss. induction asns as [|input rest IH]; intros i ss H.
  - discriminate H.
  - destruct (main_loop_cons fl hosts dest i input rest ss) as [Hraise Hok].
    pose proof (handle_asn_outcome fl (hosts i) dest input ss) as Hout.
    destruct (value (process_asn fl (sys (hosts i)) (normalize_asn input)
                       (base ss))) as [r|err'] eqn:Hv.
    + destruct (Hok Hout) as [Ho Hs]. rewrite Ho in H.
      destruct (IH (S i) _ H) as (k & input' & Hk & Hc & Hp & Hw).
      exists (S k), input'. cbn [take lookup list_lookup].
      destruct (main_loop_cons fl hosts dest i input (take k rest) ss)
        as [_ Hok'].
      destruct (Hok' Hout) as [Ho' Hs'].
      rewrite Ho', Hs', Hs.
      replace (i + S k)%nat with (S i + k)%nat by lia.
      now repeat split.
    + destruct (Hraise err' Hout) as [Ho Hs]. rewrite Ho in H.
      injection H as ->.
      exists 0%nat, input.
      split; [reflexivity|]. split; [reflexivity|]. split.
      * replace (i + 0)%nat with i by lia. exact Hv.
      * rewrite Hs.
        now destruct (handle_asn_raises fl (hosts i) dest input ss err Hv)
          as (_ & -> & _).
Qed.

Lemma main_loop_uncaught_witness :
  exists (k : nat) (input : string),
    ["62419"; "64512"] !! k = Some input
    /\ outcome_of (main_loop Examples.no_floats
                     (fun _ => Runs.writing (Examples.answering "<html>"))
                     "." 0 (take k ["62419"; "64512"]) Runs.fresh_session)
       = Completed.
Proof.
  destruct (main_loop_uncaught Examples.no_floats
              (fun _ => Runs.writing (Examples.answering "<html>"))
              "." ["62419"; "64512"] 0 Runs.fresh_session JSONDecodeError
              eq_refl)
    as (k & input & Hk & Hc & _).
  now exists k, input.
Defined.




Lemma handle_asn_other_files
    (fl : float_ops) (h : host) (dest input : string) (ss : session)
    (path : string) :
  path <> output_path dest input ->
  outputs (session_of (handle_asn fl h dest input ss)) !! path
  = outputs ss !! path.
Proof.
  intros Hp.
  destruct (value (process_asn fl (sys h) (normalize_asn input) (base ss)))
    as [r|err] eqn:Hv.
  - destruct (handle_asn_returns fl h dest input ss r Hv) as (_ & _ & _ & ->).
    unfold write_output.
    destruct (out_fault h (output_path dest input)); cbn [snd];
      try reflexivity; now apply lookup_insert_ne.
  - now destruct (handle_asn_raises fl h dest input ss err Hv) as (_ & -> & _).
Qed.

(** X21.  The loop of [main] writes to no file but those named after the
    normalized ASNs of the command line: every other output file is after
    the run what it was before, however the run ends. *)
Theorem main_loop_writes_named_files
    (fl : float_ops) (hosts : nat -> host) (dest : string) (asns : list string)
    (i : nat) (ss : session) (path : string) :
  (forall input : string, input ∈ asns -> path <> output_path dest input) ->
  outputs (session_of (main_loop fl hosts dest i asns ss)) !! path
  = outputs ss !! path.
Proof.
  revert i ss. induction asns as [|input rest IH]; intros i ss Hp.
  - reflexivity.
  - destruct (main_loop_cons fl hosts dest i input rest ss) as [Hraise Hok].
    pose proof (handle_asn_outcome fl (hosts i) dest input ss) as Hout.
    assert (Hone : outputs (session_of (handle_asn fl (hosts i) dest input ss))
                     !! path = outputs ss !! path).
    { apply handle_asn_other_files, Hp. left. }
    destruct (value (process_asn fl (sys (hosts i)) (normalize_asn input)
                       (base ss))) as [r|err].
    + destruct (Hok Hout) as [_ ->]. rewrite IH; [exact Hone|].
      intros input' Hin. apply Hp. now right.
    + destruct (Hraise err Hout) as [_ ->]. exact Hone.
Qed.

Lemma main_loop_writes_named_files_witness :
  outputs (session_of (main_loop Examples.no_floats
                         (fun _ => Runs.writing Examples.offline)
                         "out" 0 ["62419"] Runs.fresh_session))
    !! "out/AS64512.txt"
  = outputs Runs.fresh_session !! "out/AS64512.txt".
Proof.
  apply (main_loop_writes_named_files Examples.no_floats
           (fun _ => Runs.writing Examples.offline)
           "out" ["62419"] 0 Runs.fresh_session "out/AS64512.txt").
  intros input Hin. apply list_elem_of_singleton in Hin. subst input.
  intros H. vm_compute in H. discriminate H.
Defined.

Lemma startswith_AS_inv (r : string) :
  startswith r "AS" = true -> exists t : string, r = "AS" +:+ t.
Proof.
  unfold startswith. intros H. apply String.prefix_correct in H.
  destruct r as [|a [|b t]]; simpl in H; try discriminate H.
  injection H as -> -> _. now exists t.
Qed.

Lemma normalize_asn_AS (s : string) :
  exists t : string, normalize_asn s = "AS" +:+ t.
Proof.
  unfold normalize_asn.
  destruct (startswith (upper (strip s)) "AS") eqn:E; simpl.
  - now apply startswith_AS_inv.
  - now exists (upper (strip s)).
Qed.

Lemma last_char_none (s : string) : last_char s = None -> s = EmptyString.
Proof.
  induction s as [|c s IH]; [reflexivity|].
  simpl. destruct s; [discriminate|]. intros H. now discriminate (IH H).
Qed.

(** X22.  The name of an output file always begins with the destination
    folder, whatever the ASN typed: the normalized ASN begins with [AS],
    so [os.path.join] never takes it for an absolute path. *)
Theorem output_path_in_dest (dest input : string) :
  output_path dest input = dest +:+ normalize_asn input +:+ ".txt"
  \/ output_path dest input = dest +:+ "/" +:+ normalize_asn input +:+ ".txt".
Proof.
  unfold output_path, path_join.
  destruct (normalize_asn_AS input) as [t ->].
  change (startswith (("AS" +:+ t) +:+ ".txt") "/") with false. cbv iota.
  destruct (last_char dest) as [c|] eqn:Hl.
  - destruct (Ascii.eqb c "/"); [now left | now right].
  - apply last_char_none in Hl. subst dest. now left.
Qed.

Lemma append_empty_r (s : string) : s +:+ EmptyString = s.
Proof.
  induction s as [|c s IH]; [reflexivity|].
  change (String c s +:+ EmptyString) with (String c (s +:+ EmptyString)).
  now rewrite IH.
Qed.

Lemma append_snoc (s t : string) (c : ascii) :
  (s +:+ String c EmptyString) +:+ t = s +:+ String c t.
Proof.
  induction s as [|d s IH]; [reflexivity|].
  change (String d ((s +:+ String c EmptyString) +:+ t)
          = String d (s +:+ String c t)).
  now rewrite IH.
Qed.

Lemma splitlines_go_line (p cur rest : string) :
  plain p = true ->
  Lines.splitlines_go cur (p +:+ Lines.nl +:+ rest)
  = (cur +:+ p) :: Lines.splitlines_go EmptyString rest.
Proof.
  revert cur. induction p as [|c p IH]; intros cur Hp.
  - rewrite append_empty_r. reflexivity.
  - simpl in Hp. apply andb_prop in Hp as [Hc Hp].
    apply andb_prop in Hc as [Hcr Hbr].
    apply negb_true_iff in Hcr, Hbr.
    change (String c p +:+ Lines.nl +:+ rest)
      with (String c (p +:+ Lines.nl +:+ rest)).
    cbn [Lines.splitlines_go]. rewrite Hcr, Hbr.
    rewrite (IH _ Hp). now rewrite append_snoc.
Qed.

(** X23.  The output file has one line per prefix: when no prefix holds
    a line break, splitting the text that [main] writes gives back the
    prefixes, in order. *)
Theorem output_text_lines (prefixes : list string) :
  (forall p : string, p ∈ prefixes -> plain p = true) ->
  Lines.splitlines (output_text prefixes) = prefixes.
Proof.
  unfold Lines.splitlines.
  induction prefixes as [|p rest IH]; intros H; [reflexivity|].
  cbn [output_text]. rewrite splitlines_go_line by (apply H; left).
  change (EmptyString +:+ p) with p. f_equal.
  apply IH. intros q Hq. apply H. now right.
Qed.

Lemma output_text_lines_witness :
  Lines.splitlines (output_text ["10.0.0.0/24"; "10.0.1.0/24"])
  = ["10.0.0.0/24"; "10.0.1.0/24"].
Proof.
  apply (output_text_lines ["10.0.0.0/24"; "10.0.1.0/24"]).
  intros p Hp.
  apply list_elem_of_In in Hp. destruct Hp as [<- | [<- | []]]; reflexivity.
Defined.
